(** * Pyomo glue code: Xpress persistent interface, GDPopt configuration,
      APPSI plugin registration and the SciPy square-system shim.

    The development embeds four source files of the repository:

    - [pyomo/solvers/plugins/solvers/xpress_persistent.py]
    - [pyomo/contrib/gdpopt/config_options.py]
    - [pyomo/contrib/appsi/plugins.py]
    - [pyomo/contrib/pynumero/algorithms/solvers/scipy_solvers.py]

    Python code is embedded as state-passing functions in a small
    state-and-exception monad: a raised exception keeps the mutations made
    before it.  Dictionaries are [gmap]s, Python objects that are mutated in
    place live in a store indexed by object identity, and the vendor solver
    (the [xpress.problem] object) is an interface whose methods are taken as
    parameters. *)

From Stdlib Require Import QArith ZArith Ascii String List Bool Lia.
From stdpp Require Import functions gmap strings list fin_maps.

Local Open Scope string_scope.
Local Open Scope list_scope.

(** ** Python values, exceptions and control flow *)

(** The exceptions the embedded code can raise.  [VendorError] stands for
    whatever the vendor library raises on its own. *)
Inductive exn : Type :=
| ValueError (msg : string)
| NameError (name : string)
| KeyError (key : nat)
| AttributeError (msg : string)
| TypeError (msg : string)
| AssertionError (msg : string)
| RuntimeError (msg : string)
| VendorError (msg : string).

(** Outcome of evaluating a Python expression or statement. *)
Inductive Res (A : Type) : Type :=
| Ok (a : A)
| Raise (e : exn).
Arguments Ok {A} a.
Arguments Raise {A} e.

(** Stateful, fallible computations over a state [S].  The state after a
    [Raise] is the state at the point where the exception left the code. *)
Definition M (S A : Type) : Type := S -> Res A * S.

Definition ret {S A : Type} (a : A) : M S A := fun s => (Ok a, s).

Definition raise {S A : Type} (e : exn) : M S A := fun s => (Raise e, s).

Definition bind {S A B : Type} (m : M S A) (k : A -> M S B) : M S B :=
  fun s =>
    match m s with
    | (Ok a, s') => k a s'
    | (Raise e, s') => (Raise e, s')
    end.

Definition gets {S A : Type} (f : S -> A) : M S A := fun s => (Ok (f s), s).

Definition modify {S : Type} (f : S -> S) : M S unit := fun s => (Ok tt, f s).

(** A pure, fallible value used inside a stateful computation. *)
Definition liftR {S A : Type} (r : Res A) : M S A := fun s => (r, s).

Declare Scope py_scope.
Delimit Scope py_scope with py.
Notation "x <- m ;; k" := (bind m (fun x => k))
  (at level 100, m at next level, right associativity) : py_scope.
Notation "m ;; k" := (bind m (fun _ => k))
  (at level 100, right associativity) : py_scope.
Local Open Scope py_scope.

(** Objects bound to module-level names: functions, classes, modules and
    sets are opaque, [GValue] is a data value of type [A]. *)
Inductive pyglobal (A : Type) : Type :=
| GFunction
| GClass
| GModule
| GSet
| GValue (a : A).
Arguments GFunction {A}.
Arguments GClass {A}.
Arguments GModule {A}.
Arguments GSet {A}.
Arguments GValue {A} a.

(** Python's lookup of a name that is not a local of the running function:
    the module's globals are searched (no builtin is called [obj_term],
    [pyo] or [name]); a name that is not bound raises [NameError]. *)
Fixpoint load_global {A : Type} (globals : list (string * pyglobal A))
    (x : string) : Res (pyglobal A) :=
  match globals with
  | [] => Raise (NameError x)
  | (y, g) :: rest => if String.eqb x y then Ok g else load_global rest x
  end.

(** ** Pyomo numeric objects (pyomo.core) *)

(** A scalar [Var] (or a single [_VarData]).  The three domain tests are
    independent methods of the object; [var_id] is the object's identity,
    which is what a [ComponentMap] hashes. *)
Record Var : Type := {
  var_id : nat;
  var_name : string;
  var_domain : string;
  is_binary : bool;
  is_integer : bool;
  is_continuous : bool;
  is_fixed : bool;
  var_value : option Q;
  var_lb : option Q;
  var_ub : option Q
}.

Definition has_lb (var : Var) : bool :=
  match var_lb var with Some _ => true | None => false end.

Definition has_ub (var : Var) : bool :=
  match var_ub var with Some _ => true | None => false end.

(** Numeric values: native Python numbers and Pyomo [NumericValue] objects.
    [a * b] and [a += b] on Pyomo objects build expression nodes. *)
Inductive expr : Type :=
| Const (q : Q)
| ParamData (name : string) (v : option Q)
| VarData (v : Var)
| ProductExpression (a b : expr)
| SumExpression (a b : expr).

(** [val.__class__ in native_numeric_types] *)
Definition is_native_numeric (val : expr) : bool :=
  match val with Const _ => true | _ => false end.

(** [val.is_expression_type()] *)
Definition is_expression_type (val : expr) : bool :=
  match val with
  | ProductExpression _ _ | SumExpression _ _ => true
  | _ => false
  end.

(** [val == 0.] for a native number. *)
Definition eq_zero (val : expr) : bool :=
  match val with Const q => Qeq_bool q 0 | _ => false end.

(** Modelled from the spec: [pyomo.core.expr.numvalue.value] is not among the
    source files; it is taken as the evaluation of a numeric object, raising
    [ValueError] on an object that holds no value. *)
Fixpoint value (val : expr) : Res Q :=
  match val with
  | Const q => Ok q
  | ParamData name (Some q) => Ok q
  | ParamData name None =>
      Raise (ValueError ("No value for uninitialized NumericValue object " +:+ name))
  | VarData v =>
      match var_value v with
      | Some q => Ok q
      | None =>
          Raise (ValueError
                   ("No value for uninitialized NumericValue object " +:+ var_name v))
      end
  | ProductExpression a b =>
      match value a with
      | Ok x => match value b with Ok y => Ok (x * y)%Q | Raise e => Raise e end
      | Raise e => Raise e
      end
  | SumExpression a b =>
      match value a with
      | Ok x => match value b with Ok y => Ok (x + y)%Q | Raise e => Raise e end
      | Raise e => Raise e
      end
  end.

(** Modelled from the spec: [EXPR.evaluate_expression] is not among the
    source files; it evaluates an expression tree like [value]. *)
Definition evaluate_expression (e : expr) : Res Q := value e.

(** ** xpress_persistent.py *)

(** Names bound at module level of [xpress_persistent.py]: its imports and
    its two definitions. *)
Definition xpress_persistent_globals : list (string * pyglobal expr) :=
  [ ("ConcreteModel", GClass); ("XpressDirect", GClass);
    ("PersistentSolver", GClass); ("value", GFunction);
    ("is_fixed", GFunction); ("native_numeric_types", GSet);
    ("EXPR", GModule); ("SolverFactory", GClass);
    ("find_active_objective", GFunction); ("collections", GModule);
    ("_convert_to_const", GFunction); ("XpressPersistent", GClass) ].

(** A native number produced by an evaluation, as a Python value. *)
Definition as_const (r : Res Q) : Res expr :=
  match r with Ok q => Ok (Const q) | Raise e => Raise e end.

(** [_convert_to_const(val)].  In the second branch the argument of
    [EXPR.evaluate_expression] is the name [obj_term], which is not a
    parameter of the function and so is looked up among the globals. *)
Definition _convert_to_const (val : expr) : Res expr :=
  if is_native_numeric val then Ok val
  else if is_expression_type val then
    match load_global xpress_persistent_globals "obj_term" with
    | Ok (GValue obj_term) => as_const (evaluate_expression obj_term)
    | Ok _ => Raise (TypeError "evaluate_expression")
    | Raise e => Raise e
    end
  else as_const (value val).

(** Handles of the vendor library: columns and rows of the solver model. *)
Abbreviation xvar := nat (only parsing).
Abbreviation xcon := nat (only parsing).

(** Keyword arguments of [xpress.problem.addcols]. *)
Record addcols_args : Type := {
  objx : list expr;
  mstart : list nat;
  mrwind : list xcon;
  dmatval : list expr;
  bdl : list (option Q);
  bdu : list (option Q);
  names : list string;
  types : list string
}.

(** The Pyomo model held in [self._pyomo_model]: its Objective data objects
    (reference and [active] flag, in declaration order), and the store of
    the attributes the interface updates in place: [obj.expr] of an
    objective and [c._body] of a constraint, by object identity. *)
Record PyomoModel : Type := {
  objectives : list (nat * bool);
  obj_expr : nat -> expr;
  con_body : nat -> expr
}.

(** What [xpress_persistent.py] calls and does not define: the vendor's
    [xpress.problem] methods (each may raise, each may change the solver
    model), the vendor constant [xpress.infinity], the symbol map of the
    base class and [pyomo.pysp.phutils.find_active_objective].
    [None] in a bound list is Python's [None]. *)
Class Externals : Type := {
  problem : Type;
  symbol_map : Type;
  pyobj : Type;
  xpress_infinity : Q;
  find_active_objective : PyomoModel -> bool -> Res (option nat);
  getSymbol : Var -> symbol_map -> Res string * symbol_map;
  chgbounds : list xvar -> list string -> list (option Q) -> problem -> Res unit * problem;
  chgcoltype : list xvar -> list string -> problem -> Res unit * problem;
  addcols : addcols_args -> problem -> Res unit * problem;
  getIndexFromName : nat -> string -> problem -> Res nat * problem;
  getVariable : nat -> problem -> Res xvar * problem;
  getAttrib : list pyobj -> problem -> Res pyobj * problem;
  setControl : list pyobj -> problem -> Res pyobj * problem;
  getControl : list pyobj -> problem -> Res pyobj * problem;
  xp_write : string -> string -> problem -> Res pyobj * problem
}.

Section XpressPersistent.
Context {ext : Externals}.

(** The attributes of an [XpressPersistent] instance that its methods read
    or write.  The maps are [ComponentMap]s keyed by object identity. *)
Record XpressPersistent : Type := {
  _pyomo_model : PyomoModel;
  _solver_model : problem;
  _symbol_map : symbol_map;
  _pyomo_var_to_solver_var_map : gmap nat xvar;
  _solver_var_to_pyomo_var_map : gmap xvar nat;
  _pyomo_con_to_solver_con_map : gmap nat xcon;
  _vars_referenced_by_con : gmap nat (gset nat);
  _referenced_variables : gmap nat nat
}.

Definition set_pyomo_model (m : PyomoModel) (self : XpressPersistent) : XpressPersistent :=
  {| _pyomo_model := m;
     _solver_model := _solver_model self;
     _symbol_map := _symbol_map self;
     _pyomo_var_to_solver_var_map := _pyomo_var_to_solver_var_map self;
     _solver_var_to_pyomo_var_map := _solver_var_to_pyomo_var_map self;
     _pyomo_con_to_solver_con_map := _pyomo_con_to_solver_con_map self;
     _vars_referenced_by_con := _vars_referenced_by_con self;
     _referenced_variables := _referenced_variables self |}.

Definition set_solver_model (p : problem) (self : XpressPersistent) : XpressPersistent :=
  {| _pyomo_model := _pyomo_model self;
     _solver_model := p;
     _symbol_map := _symbol_map self;
     _pyomo_var_to_solver_var_map := _pyomo_var_to_solver_var_map self;
     _solver_var_to_pyomo_var_map := _solver_var_to_pyomo_var_map self;
     _pyomo_con_to_solver_con_map := _pyomo_con_to_solver_con_map self;
     _vars_referenced_by_con := _vars_referenced_by_con self;
     _referenced_variables := _referenced_variables self |}.

Definition set_symbol_map (sm : symbol_map) (self : XpressPersistent) : XpressPersistent :=
  {| _pyomo_model := _pyomo_model self;
     _solver_model := _solver_model self;
     _symbol_map := sm;
     _pyomo_var_to_solver_var_map := _pyomo_var_to_solver_var_map self;
     _solver_var_to_pyomo_var_map := _solver_var_to_pyomo_var_map self;
     _pyomo_con_to_solver_con_map := _pyomo_con_to_solver_con_map self;
     _vars_referenced_by_con := _vars_referenced_by_con self;
     _referenced_variables := _referenced_variables self |}.

Definition set_vars_referenced_by_con (m : gmap nat (gset nat))
    (self : XpressPersistent) : XpressPersistent :=
  {| _pyomo_model := _pyomo_model self;
     _solver_model := _solver_model self;
     _symbol_map := _symbol_map self;
     _pyomo_var_to_solver_var_map := _pyomo_var_to_solver_var_map self;
     _solver_var_to_pyomo_var_map := _solver_var_to_pyomo_var_map self;
     _pyomo_con_to_solver_con_map := _pyomo_con_to_solver_con_map self;
     _vars_referenced_by_con := m;
     _referenced_variables := _referenced_variables self |}.

(** The three assignments that close [add_column]. *)
Definition record_column (var : Var) (xpress_var : xvar) (n : nat)
    (self : XpressPersistent) : XpressPersistent :=
  {| _pyomo_model := _pyomo_model self;
     _solver_model := _solver_model self;
     _symbol_map := _symbol_map self;
     _pyomo_var_to_solver_var_map :=
       <[var_id var := xpress_var]> (_pyomo_var_to_solver_var_map self);
     _solver_var_to_pyomo_var_map :=
       <[xpress_var := var_id var]> (_solver_var_to_pyomo_var_map self);
     _pyomo_con_to_solver_con_map := _pyomo_con_to_solver_con_map self;
     _vars_referenced_by_con := _vars_referenced_by_con self;
     _referenced_variables := <[var_id var := n]> (_referenced_variables self) |}.

(** A call of a method of [self._solver_model]. *)
Definition solver_call {A : Type} (f : problem -> Res A * problem) : M XpressPersistent A :=
  fun self =>
    let '(r, p) := f (_solver_model self) in (r, set_solver_model p self).

(** [self._symbol_map.getSymbol(var, self._labeler)] *)
Definition symbol_of (var : Var) : M XpressPersistent string :=
  fun self =>
    let '(r, sm) := getSymbol var (_symbol_map self) in (r, set_symbol_map sm self).

(** [obj.expr += t] on the objective object [obj]. *)
Definition iadd_obj_expr (obj : nat) (t : expr) (m : PyomoModel) : PyomoModel :=
  {| objectives := objectives m;
     obj_expr := <[obj := SumExpression (obj_expr m obj) t]> (obj_expr m);
     con_body := con_body m |}.

(** [c._body += t] on the constraint object [c]. *)
Definition iadd_con_body (c : nat) (t : expr) (m : PyomoModel) : PyomoModel :=
  {| objectives := objectives m;
     obj_expr := obj_expr m;
     con_body := <[c := SumExpression (con_body m c) t]> (con_body m) |}.

(** [_xpress_chgcoltype_from_var] *)
Definition _xpress_chgcoltype_from_var (var : Var) : Res string :=
  if is_binary var then Ok "B"
  else if is_integer var then Ok "I"
  else if is_continuous var then Ok "C"
  else Raise (ValueError
                ("Variable domain type is not recognized for " +:+ var_domain var)).

(** [update_var] *)
Definition update_var (var : Var) : M XpressPersistent unit :=
  m <- gets _pyomo_var_to_solver_var_map ;;
  match m !! var_id var with
  | None =>
      raise (ValueError
               ("The Var provided to compile_var needs to be added first: "
                  +:+ var_name var))
  | Some xpress_var =>
      qctype <- liftR (_xpress_chgcoltype_from_var var) ;;
      let '(lb, ub) :=
        if is_fixed var then (var_value var, var_value var)
        else
          (if has_lb var then var_lb var else Some (- xpress_infinity)%Q,
           if has_ub var then var_ub var else Some xpress_infinity) in
      solver_call (chgbounds [xpress_var; xpress_var] ["L"; "U"] [lb; ub]) ;;
      solver_call (chgcoltype [xpress_var] [qctype])
  end.

(** The loop of [add_column] over [zip(coefficients, constraints)]; the
    locals [coeff_list] and [constr_list] are threaded through. *)
Fixpoint add_column_loop (var : Var) (pairs : list (expr * nat))
    (coeff_list : list expr) (constr_list : list xcon)
    : M XpressPersistent (list expr * list xcon) :=
  match pairs with
  | [] => ret (coeff_list, constr_list)
  | (val, c) :: rest =>
      modify (fun self =>
                set_pyomo_model
                  (iadd_con_body c (ProductExpression val (VarData var))
                     (_pyomo_model self)) self) ;;
      refs <- gets _vars_referenced_by_con ;;
      match refs !! c with
      | None => raise (KeyError c)
      | Some s =>
          modify (set_vars_referenced_by_con (<[c := {[var_id var]} ∪ s]> refs)) ;;
          cval <- liftR (_convert_to_const val) ;;
          cmap <- gets _pyomo_con_to_solver_con_map ;;
          match cmap !! c with
          | None => raise (KeyError c)
          | Some solver_con =>
              add_column_loop var rest (coeff_list ++ [cval])
                (constr_list ++ [solver_con])
          end
      end
  end.

(** [add_column].  [obj_coef] is computed and not used afterwards: the
    [objx] argument of [addcols] is [[obj_term]]. *)
Definition add_column (var : Var) (obj_term : expr) (constraints : list nat)
    (coefficients : list expr) : M XpressPersistent unit :=
  (if is_native_numeric obj_term && eq_zero obj_term then ret tt
   else
     model <- gets _pyomo_model ;;
     obj <- liftR (find_active_objective model true) ;;
     match obj with
     | None => raise (AttributeError "'NoneType' object has no attribute 'expr'")
     | Some o =>
         modify (fun self =>
                   set_pyomo_model
                     (iadd_obj_expr o (ProductExpression obj_term (VarData var))
                        (_pyomo_model self)) self)
     end) ;;
  obj_coef <- liftR (_convert_to_const obj_term) ;;
  lists <- add_column_loop var (combine coefficients constraints) [] [] ;;
  let '(coeff_list, constr_list) := lists in
  varname <- symbol_of var ;;
  vartype <- liftR (_xpress_chgcoltype_from_var var) ;;
  let lb := if has_lb var then var_lb var else Some (- xpress_infinity)%Q in
  let ub := if has_ub var then var_ub var else Some xpress_infinity in
  let '(lb, ub) :=
    if is_fixed var then (var_value var, var_value var) else (lb, ub) in
  solver_call
    (addcols {| objx := [obj_term];
                mstart := [0; length coeff_list];
                mrwind := constr_list;
                dmatval := coeff_list;
                bdl := [lb];
                bdu := [ub];
                names := [varname];
                types := [vartype] |}) ;;
  index <- solver_call (getIndexFromName 2 varname) ;;
  xpress_var <- solver_call (getVariable index) ;;
  modify (record_column var xpress_var (length coeff_list)).

(** [get_xpress_attribute], called with the argument tuple [args] *)
Definition get_xpress_attribute (args : list pyobj) : M XpressPersistent pyobj :=
  solver_call (getAttrib args).

(** [set_xpress_control]: the vendor's result is dropped. *)
Definition set_xpress_control (args : list pyobj) : M XpressPersistent unit :=
  solver_call (setControl args) ;; ret tt.

(** [get_xpress_control] *)
Definition get_xpress_control (args : list pyobj) : M XpressPersistent pyobj :=
  solver_call (getControl args).

(** [write(filename, flags)]; [None] for [flags] is the omitted argument,
    whose default is the empty string. *)
Definition write (filename : string) (flags : option string) : M XpressPersistent unit :=
  solver_call (xp_write filename (default "" flags)) ;; ret tt.

End XpressPersistent.

(** ** gdpopt/config_options.py *)

(** [str.replace(old, new)] and [c in s], for single characters. *)
Fixpoint str_replace (old new : ascii) (s : string) : string :=
  match s with
  | EmptyString => EmptyString
  | String c rest =>
      String (if Ascii.eqb c old then new else c) (str_replace old new rest)
  end.

Fixpoint str_contains (c : ascii) (s : string) : bool :=
  match s with
  | EmptyString => false
  | String c' rest => Ascii.eqb c' c || str_contains c rest
  end.

(** What [isinstance] tells about the object [SolverFactory(val)] returns. *)
Record solver_object : Type := {
  isinstance_UnknownSolver : bool;
  isinstance_PersistentSolver : bool
}.

(** Default values of configuration options.  Floats are written as the
    rationals their literals denote. *)
Inductive pydefault : Type :=
| DNone
| DBool (b : bool)
| DInt (z : Z)
| DFloat (q : Q)
| DStr (s : string)
| DCallable (name : string).

(** The [domain] argument of a declaration: a validator of
    [pyomo.common.config], the builtin [bool], or this module's
    [_valid_solvers]; [NoDomain] when the argument is omitted. *)
Inductive domain : Type :=
| NoDomain
| In (keys : list string)
| NonNegativeFloat
| NonNegativeInt
| PositiveInt
| Dbool
| D_valid_solvers.

(** The objects held by a configuration block.  A [ConfigValue] object
    keeps the default and the domain it was built with and its value,
    [_data]; [ConfigBlock(implicit=...)] builds an empty block and cannot
    fail.  The [description] and [doc] texts are documentation and are left
    out. *)
Inductive config_item : Type :=
| ConfigValue_object (_default : pydefault) (_domain : domain) (_data : pydefault)
| ConfigList_object (_default : pydefault) (_domain : domain)
| ConfigBlock (implicit : bool).

(** Modelled from the spec: [pyomo.common.config.ConfigDict.declare] is not
    among the source files.  A configuration block is modelled by its
    dictionary [_data]; the list [_decl_order], which records the order of
    the declarations, is left out.  The key of a declaration is its name
    with spaces replaced by underscores; a key that is present already
    raises [ValueError], and so does a name with one of the characters
    [.], [[] and []].  The builders pass an object they have just built, so
    the check that the object belongs to no other block never fails. *)
Definition declare (name : string) (config : config_item)
    : M (gmap string config_item) unit :=
  fun CONFIG =>
    let _name := str_replace " " "_" name in
    match CONFIG !! _name with
    | Some _ =>
        (Raise (ValueError ("duplicate config '" +:+ name +:+ "' defined")), CONFIG)
    | None =>
        if str_contains "." name || str_contains "[" name || str_contains "]" name
        then (Raise (ValueError ("Illegal character in config '" +:+ name
                                   +:+ "': '.[]' are not allowed.")), CONFIG)
        else (Ok tt, <[_name := config]> CONFIG)
    end.

(** Python's [bool(v)], [float(v)] and [int(v)] on the values of
    [pydefault].  [float] and [int] are given where the result is exact:
    integers up to [2^53] and rationals; on strings, callables and larger
    integers they are not interpreted. *)
Definition truth (v : pydefault) : bool :=
  match v with
  | DNone => false
  | DBool b => b
  | DInt z => negb (z =? 0)%Z
  | DFloat q => negb (Qeq_bool q 0)
  | DStr s => negb (String.length s =? 0)%nat
  | DCallable _ => true
  end.

Definition float_of (v : pydefault) : option Q :=
  match v with
  | DBool b => Some (if b then 1%Q else 0%Q)
  | DInt z => if (Z.abs z <=? 2 ^ 53)%Z then Some (inject_Z z) else None
  | DFloat q => Some q
  | _ => None
  end.

Definition int_of (v : pydefault) : option Z :=
  match v with
  | DBool b => Some (if b then 1%Z else 0%Z)
  | DInt z => if (Z.abs z <=? 2 ^ 53)%Z then Some z else None
  | DFloat q => Some (Z.quot (Qnum q) (Zpos (Qden q)))
  | _ => None
  end.

Section GDPoptConfig.

(** [pyomo.opt.SolverFactory], called on a solver name. *)
Variable SolverFactory : string -> solver_object.

(** The keys of [valid_init_strategies], imported from
    [pyomo.contrib.gdpopt.master_initialize]. *)
Variable valid_init_strategies_keys : list string.

(** What building a [ConfigValue] gives when its domain is applied to a
    default this model does not interpret, and what building a [ConfigList]
    gives on a default other than [None].  The module passes neither. *)
Variable ConfigValue_other : pydefault -> domain -> Res pydefault.
Variable ConfigList_other : pydefault -> domain -> Res config_item.

(** [_valid_solvers(val)] *)
Definition _valid_solvers (val : string) : Res string :=
  let opt := SolverFactory val in
  if isinstance_UnknownSolver opt then
    Raise (ValueError
             ("Expected a valid name for a solver. Received '" +:+ val +:+ "'"))
  else if isinstance_PersistentSolver opt then
    Raise (ValueError
             ("GDPopt does not currently support the '" +:+ val +:+ "' solver. "
                +:+ "The only supported persistent solvers are those in "
                +:+ "the APPSI package."))
  else Ok val.

(** Modelled from the spec: the validators of [pyomo.common.config] are not
    among the source files.  The call [domain(value)]: [In(keys)] returns a
    value that is among the keys and raises [ValueError] on any other;
    [NonNegativeFloat] returns [float(value)] unless it is negative;
    [NonNegativeInt] and [PositiveInt] return [int(value)] unless it differs
    from [float(value)] or is negative (not positive).  [None] stands for a
    call this model does not interpret. *)
Definition domain_call (dom : domain) (value : pydefault)
    : option (Res pydefault) :=
  match dom with
  | NoDomain => Some (Ok value)
  | Dbool => Some (Ok (DBool (truth value)))
  | In keys =>
      match value with
      | DStr s =>
          if bool_decide (s ∈ keys) then Some (Ok value)
          else Some (Raise (ValueError "value not in domain"))
      | DCallable _ => None
      | _ => Some (Raise (ValueError "value not in domain"))
      end
  | NonNegativeFloat =>
      match float_of value with
      | Some ans =>
          if Qle_bool 0 ans then Some (Ok (DFloat ans))
          else Some (Raise (ValueError "Expected non-negative float"))
      | None => None
      end
  | NonNegativeInt =>
      match int_of value, float_of value with
      | Some ans, Some f =>
          if negb (Qeq_bool (inject_Z ans) f) || (ans <? 0)%Z
          then Some (Raise (ValueError "Expected non-negative int"))
          else Some (Ok (DInt ans))
      | _, _ => None
      end
  | PositiveInt =>
      match int_of value, float_of value with
      | Some ans, Some f =>
          if negb (Qeq_bool (inject_Z ans) f) || (ans <=? 0)%Z
          then Some (Raise (ValueError "Expected positive int"))
          else Some (Ok (DInt ans))
      | _, _ => None
      end
  | D_valid_solvers =>
      match value with
      | DStr s =>
          match _valid_solvers s with
          | Ok val => Some (Ok (DStr val))
          | Raise e => Some (Raise e)
          end
      | _ => None
      end
  end.

(** Modelled from the spec: [pyomo.common.config.ConfigValue] is not among
    the source files.  [ConfigValue(default=..., domain=...)] sets the value
    of the new object to its default: [None] is stored as it is, any other
    default is passed through the domain, and an exception the domain
    raises leaves the constructor as a [ValueError]. *)
Definition ConfigValue (default : pydefault) (dom : domain) : Res config_item :=
  match default with
  | DNone => Ok (ConfigValue_object DNone dom DNone)
  | _ =>
      match domain_call dom default with
      | Some (Ok data) => Ok (ConfigValue_object default dom data)
      | Some (Raise _) => Raise (ValueError "invalid value for configuration")
      | None =>
          match ConfigValue_other default dom with
          | Ok data => Ok (ConfigValue_object default dom data)
          | Raise e => Raise e
          end
      end
  end.

(** Modelled from the spec: [ConfigList(default=None)] builds an empty
    list. *)
Definition ConfigList (default : pydefault) (dom : domain) : Res config_item :=
  match default with
  | DNone => Ok (ConfigList_object DNone dom)
  | _ => ConfigList_other default dom
  end.

(** [_add_OA_configs(CONFIG)].  Python evaluates the argument of a call
    before the call: the object is built, then declared. *)
Definition _add_OA_configs : M (gmap string config_item) unit :=
  config <- liftR (ConfigValue (DStr "set_covering") (In valid_init_strategies_keys)) ;;
  declare "init_strategy" config ;;
  config <- liftR (ConfigList DNone NoDomain) ;;
  declare "custom_init_disjuncts" config ;;
  config <- liftR (ConfigValue (DInt 1000) NonNegativeFloat) ;;
  declare "max_slack" config ;;
  config <- liftR (ConfigValue (DInt 1000) NonNegativeFloat) ;;
  declare "OA_penalty_factor" config ;;
  config <- liftR (ConfigValue (DInt 8) NonNegativeInt) ;;
  declare "set_cover_iterlim" config ;;
  config <- liftR (ConfigValue (DStr "gdp.bigm") NoDomain) ;;
  declare "master_problem_transformation" config ;;
  config <- liftR (ConfigValue (DCallable "_DoNothing") NoDomain) ;;
  declare "call_before_master_solve" config ;;
  config <- liftR (ConfigValue (DCallable "_DoNothing") NoDomain) ;;
  declare "call_after_master_solve" config ;;
  config <- liftR (ConfigValue (DCallable "restore_vars_to_original_values") NoDomain) ;;
  declare "subproblem_initialization_method" config ;;
  config <- liftR (ConfigValue (DCallable "_DoNothing") NoDomain) ;;
  declare "call_before_subproblem_solve" config ;;
  config <- liftR (ConfigValue (DCallable "_DoNothing") NoDomain) ;;
  declare "call_after_subproblem_solve" config ;;
  config <- liftR (ConfigValue (DCallable "_DoNothing") NoDomain) ;;
  declare "call_after_subproblem_feasible" config ;;
  config <- liftR (ConfigValue (DBool true) NoDomain) ;;
  declare "round_discrete_vars" config ;;
  config <- liftR (ConfigValue (DBool false) NoDomain) ;;
  declare "force_subproblem_nlp" config ;;
  config <- liftR (ConfigValue (DBool true) Dbool) ;;
  declare "mip_presolve" config ;;
  config <- liftR (ConfigValue (DBool true) Dbool) ;;
  declare "subproblem_presolve" config ;;
  config <- liftR (ConfigValue (DInt 3) PositiveInt) ;;
  declare "max_fbbt_iterations" config ;;
  config <- liftR (ConfigValue (DBool false) Dbool) ;;
  declare "tighten_nlp_var_bounds" config ;;
  config <- liftR (ConfigValue (DBool false) Dbool) ;;
  declare "calc_disjunctive_bounds" config ;;
  config <- liftR (ConfigValue (DBool false) Dbool) ;;
  declare "obbt_disjunctive_bounds" config.

(** [_add_BB_configs(CONFIG)] *)
Definition _add_BB_configs : M (gmap string config_item) unit :=
  config <- liftR (ConfigValue (DBool false) Dbool) ;;
  declare "check_sat" config ;;
  config <- liftR (ConfigValue (DBool false) Dbool) ;;
  declare "solve_local_rnGDP" config.

(** [_add_mip_solver_configs(CONFIG)] *)
Definition _add_mip_solver_configs : M (gmap string config_item) unit :=
  config <- liftR (ConfigValue (DStr "gurobi") D_valid_solvers) ;;
  declare "mip_solver" config ;;
  declare "mip_solver_args" (ConfigBlock true).

(** [_add_nlp_solver_configs(CONFIG)] *)
Definition _add_nlp_solver_configs : M (gmap string config_item) unit :=
  config <- liftR (ConfigValue (DStr "ipopt") D_valid_solvers) ;;
  declare "nlp_solver" config ;;
  declare "nlp_solver_args" (ConfigBlock true) ;;
  config <- liftR (ConfigValue (DStr "baron") D_valid_solvers) ;;
  declare "minlp_solver" config ;;
  declare "minlp_solver_args" (ConfigBlock true) ;;
  config <- liftR (ConfigValue (DStr "bonmin") D_valid_solvers) ;;
  declare "local_minlp_solver" config ;;
  declare "local_minlp_solver_args" (ConfigBlock true).

(** [_add_tolerance_configs(CONFIG)] *)
Definition _add_tolerance_configs : M (gmap string config_item) unit :=
  config <- liftR (ConfigValue (DFloat (1 # 1000000)) NonNegativeFloat) ;;
  declare "bound_tolerance" config ;;
  config <- liftR (ConfigValue (DFloat (1 # 100000000)) NoDomain) ;;
  declare "small_dual_tolerance" config ;;
  config <- liftR (ConfigValue (DFloat (1 # 100000)) NoDomain) ;;
  declare "integer_tolerance" config ;;
  config <- liftR (ConfigValue (DFloat (1 # 1000000)) NoDomain) ;;
  declare "constraint_tolerance" config ;;
  config <- liftR (ConfigValue (DFloat (1 # 100000000)) NoDomain) ;;
  declare "variable_tolerance" config ;;
  config <- liftR (ConfigValue (DFloat (1 # 1000000000000000)) NoDomain) ;;
  declare "zero_tolerance" config.

End GDPoptConfig.

(** ** appsi/plugins.py *)

(** The classes [plugins.py] imports from [.solvers] and [.build]. *)
Inductive appsi_class : Type :=
| AppsiBuilder
| Gurobi
| Ipopt
| Cbc
| Cplex
| Highs.

(** A Pyomo [Factory]: the classes and the doc strings registered by name. *)
Record Factory : Type := {
  _cls : gmap string appsi_class;
  _doc : gmap string (option string)
}.

(** Modelled from the spec: [Factory.register] is not among the source
    files.  [F.register(name, doc)(cls)] registers [cls] in the factory [F]
    under [name], with its doc string. *)
Definition register (name : string) (doc : option string) (cls : appsi_class)
    (F : Factory) : Factory :=
  {| _cls := <[name := cls]> (_cls F);
     _doc := <[name := doc]> (_doc F) |}.

(** The two factories [plugins.py] imports: [ExtensionBuilderFactory] of
    [pyomo.common.extensions] and [SolverFactory] of [appsi.base]. *)
Record factories : Type := {
  ExtensionBuilderFactory : Factory;
  SolverFactory : Factory
}.

Definition register_extension (name : string) (doc : option string)
    (cls : appsi_class) : M factories unit :=
  modify (fun fs =>
            {| ExtensionBuilderFactory := register name doc cls (ExtensionBuilderFactory fs);
               SolverFactory := SolverFactory fs |}).

Definition register_solver (name : string) (doc : option string)
    (cls : appsi_class) : M factories unit :=
  modify (fun fs =>
            {| ExtensionBuilderFactory := ExtensionBuilderFactory fs;
               SolverFactory := register name doc cls (SolverFactory fs) |}).

(** [load()] *)
Definition load : M factories unit :=
  register_extension "appsi" None AppsiBuilder ;;
  register_solver "gurobi" (Some "Automated persistent interface to Gurobi") Gurobi ;;
  register_solver "cplex" (Some "Automated persistent interface to Cplex") Cplex ;;
  register_solver "ipopt" (Some "Automated persistent interface to Ipopt") Ipopt ;;
  register_solver "cbc" (Some "Automated persistent interface to Cbc") Cbc ;;
  register_solver "highs" (Some "Automated persistent interface to Highs") Highs.

(** ** pynumero/algorithms/solvers/scipy_solvers.py *)

(** Components declared on a Pyomo block, by name. *)
Inductive component : Type :=
| ObjectiveComponent (active : bool) (e : expr)
| OtherComponent (ctype : string).

(** Names bound at module level of [scipy_solvers.py]: its imports and its
    three classes.  The module does not import [pyo]. *)
Definition scipy_solvers_globals : list (string * pyglobal string) :=
  [ ("Objective", GClass); ("unique_component_name", GFunction);
    ("PyomoNLP", GClass); ("_SquareNlpSolverBase", GClass); ("sp", GModule);
    ("ScipyRootSolver", GClass); ("FsolveNlpSolver", GClass);
    ("RootNlpSolver", GClass) ].

(** Modelled from the spec: [Block.component_data_objects] is not among the
    source files; [component_data_objects(Objective, active=True)] lists the
    active objectives declared on the model. *)
Definition component_data_objects_Objective (model : gmap string component)
    : list (string * component) :=
  List.filter (fun kv => match kv.2 with
                         | ObjectiveComponent true _ => true
                         | _ => false
                         end)
              (map_to_list model).

(** Modelled from the spec: [Block.add_component] is not among the source
    files; it declares the component under a name that must be free. *)
Definition add_component (name : string) (obj : component)
    : M (gmap string component) unit :=
  fun model =>
    match model !! name with
    | Some _ =>
        (Raise (RuntimeError ("Cannot add component '" +:+ name +:+ "'")), model)
    | None => (Ok tt, <[name := obj]> model)
    end.

(** Modelled from the spec: [Block.del_component] is not among the source
    files; it removes the component declared under the name. *)
Definition del_component (name : string) : M (gmap string component) unit :=
  modify (delete name).

Section ScipySolvers.

(** [pyomo.common.modeling.unique_component_name] *)
Variable unique_component_name : gmap string component -> string -> string.

(** The [PyomoNLP] constructor: it may raise, and reads the model. *)
Variable nlp : Type.
Variable PyomoNLP : gmap string component -> Res nlp.

(** [ScipyRootSolver.solve(model)].  [pyo] and [name] are not locals of the
    function, so both are looked up among the module's globals.  The local
    [obj_name] is bound only when the first branch ran. *)
Definition solve : M (gmap string component) unit :=
  model <- gets (fun model => model) ;;
  let active_objs := component_data_objects_Objective model in
  obj_name <-
    (if Nat.eqb (length active_objs) 0 then
       let obj_name := unique_component_name model "_obj" in
       pyo <- liftR (load_global scipy_solvers_globals "pyo") ;;
       let obj := ObjectiveComponent true (Const 0) in
       name <- liftR (load_global scipy_solvers_globals "name") ;;
       match name with
       | GValue name => add_component name obj
       | _ => raise (TypeError "add_component")
       end ;;
       ret (Some obj_name)
     else ret None) ;;
  model <- gets (fun model => model) ;;
  nlp <- liftR (PyomoNLP model) ;;
  if Nat.eqb (length active_objs) 0 then
    match obj_name with
    | Some obj_name => del_component obj_name
    | None => raise (NameError "obj_name")
    end
  else ret tt.

End ScipySolvers.

(** ** A vendor model that records the calls it receives

    A concrete instance of [Externals], used to run the interface on
    concrete inputs: the solver model is the list of the calls made on it, in
    order; a column's handle is its index; the symbol of a variable is its
    name; and [find_active_objective] with safety checks returns the only
    active objective, [None] when there is none, and fails on several. *)

Inductive xcall : Type :=
| Chgbounds (cols : list nat) (kinds : list string) (bnds : list (option Q))
| Chgcoltype (cols : list nat) (coltypes : list string)
| Addcols (a : addcols_args)
| GetIndexFromName (type : nat) (name : string)
| GetVariable (index : nat)
| GetAttrib (args : list string)
| SetControl (args : list string)
| GetControl (args : list string)
| WriteFile (filename flags : string).

(** Names of the columns the recorded calls have added, in column order. *)
Definition column_names (p : list xcall) : list string :=
  flat_map (fun c => match c with Addcols a => names a | _ => [] end) p.

Fixpoint index_of (name : string) (l : list string) : option nat :=
  match l with
  | [] => None
  | x :: rest =>
      if String.eqb name x then Some 0
      else match index_of name rest with Some i => Some (S i) | None => None end
  end.

Definition active_refs (m : PyomoModel) : list nat :=
  map fst (List.filter snd (objectives m)).

#[local] Instance recording : Externals := {|
  problem := list xcall;
  symbol_map := unit;
  pyobj := string;
  xpress_infinity := 100000000000000000000;
  find_active_objective := fun m safety_checks =>
    match active_refs m with
    | [] => Ok None
    | [o] => Ok (Some o)
    | o :: _ =>
        if safety_checks
        then Raise (AssertionError "More than one active objective was found")
        else Ok (Some o)
    end;
  getSymbol := fun var sm => (Ok (var_name var), sm);
  chgbounds := fun cols kinds bnds p => (Ok tt, p ++ [Chgbounds cols kinds bnds]);
  chgcoltype := fun cols coltypes p => (Ok tt, p ++ [Chgcoltype cols coltypes]);
  addcols := fun a p => (Ok tt, p ++ [Addcols a]);
  getIndexFromName := fun type name p =>
    (match index_of name (column_names p) with
     | Some i => Ok i
     | None => Raise (VendorError "name not found")
     end, p ++ [GetIndexFromName type name]);
  getVariable := fun index p => (Ok index, p ++ [GetVariable index]);
  getAttrib := fun args p => (Ok (String.concat "," args), p ++ [GetAttrib args]);
  setControl := fun args p => (Ok "", p ++ [SetControl args]);
  getControl := fun args p => (Ok (String.concat "," args), p ++ [GetControl args]);
  xp_write := fun filename flags p => (Ok "", p ++ [WriteFile filename flags])
|}.

(** Sample objects: a continuous variable [x] with lower bound 0, a fixed
    binary variable [y], a variable [z] over the domain [Any], which is
    neither binary, integer nor continuous, two parameters, and a model with
    one active objective (object 0) and constraints 1 and 2, already known
    to the solver as rows 11 and 12; [y] and [z] are already columns 0 and 1
    of the solver. *)
Definition sample_x : Var :=
  {| var_id := 5; var_name := "x"; var_domain := "Reals";
     is_binary := false; is_integer := false; is_continuous := true;
     is_fixed := false; var_value := None; var_lb := Some 0%Q; var_ub := None |}.

Definition sample_y : Var :=
  {| var_id := 6; var_name := "y"; var_domain := "Binary";
     is_binary := true; is_integer := true; is_continuous := false;
     is_fixed := true; var_value := Some 1%Q; var_lb := Some 0%Q; var_ub := Some 1%Q |}.

Definition sample_z : Var :=
  {| var_id := 7; var_name := "z"; var_domain := "Any";
     is_binary := false; is_integer := false; is_continuous := false;
     is_fixed := false; var_value := None; var_lb := None; var_ub := None |}.

Definition sample_p : expr := ParamData "p" (Some 3%Q).

Definition sample_a : expr := ParamData "a" (Some 5%Q).

Definition sample_model : PyomoModel :=
  {| objectives := [(0, true)];
     obj_expr := fun _ => Const 0;
     con_body := fun _ => Const 0 |}.

Definition sample_self : @XpressPersistent recording :=
  {| _pyomo_model := sample_model;
     _solver_model :=
       [Addcols {| objx := [Const 0]; mstart := [0; 0]; mrwind := [];
                   dmatval := []; bdl := [Some 1%Q]; bdu := [Some 1%Q];
                   names := ["y"]; types := ["B"] |};
        Addcols {| objx := [Const 0]; mstart := [0; 0]; mrwind := [];
                   dmatval := []; bdl := [None]; bdu := [None];
                   names := ["z"]; types := ["C"] |}];
     _symbol_map := tt;
     _pyomo_var_to_solver_var_map := {[ 6 := 0; 7 := 1 ]};
     _solver_var_to_pyomo_var_map := {[ 0 := 6; 1 := 7 ]};
     _pyomo_con_to_solver_con_map := {[ 1 := 11; 2 := 12 ]};
     _vars_referenced_by_con := {[ 1 := ∅; 2 := ∅ ]};
     _referenced_variables := {[ 6 := 0; 7 := 0 ]} |}.

(** A second vendor model, which differs from [recording] in one answer:
    when several columns carry a name, [getIndexFromName] returns the index
    of the column added last. *)
Definition last_index_of (name : string) (l : list string) : option nat :=
  match index_of name (rev l) with
  | Some i => Some (length l - 1 - i)
  | None => None
  end.

Definition recording_latest : Externals := {|
  problem := list xcall;
  symbol_map := unit;
  pyobj := string;
  xpress_infinity := 100000000000000000000;
  find_active_objective := fun m safety_checks =>
    match active_refs m with
    | [] => Ok None
    | [o] => Ok (Some o)
    | o :: _ =>
        if safety_checks
        then Raise (AssertionError "More than one active objective was found")
        else Ok (Some o)
    end;
  getSymbol := fun var sm => (Ok (var_name var), sm);
  chgbounds := fun cols kinds bnds p => (Ok tt, p ++ [Chgbounds cols kinds bnds]);
  chgcoltype := fun cols coltypes p => (Ok tt, p ++ [Chgcoltype cols coltypes]);
  addcols := fun a p => (Ok tt, p ++ [Addcols a]);
  getIndexFromName := fun type name p =>
    (match last_index_of name (column_names p) with
     | Some i => Ok i
     | None => Raise (VendorError "name not found")
     end, p ++ [GetIndexFromName type name]);
  getVariable := fun index p => (Ok index, p ++ [GetVariable index]);
  getAttrib := fun args p => (Ok (String.concat "," args), p ++ [GetAttrib args]);
  setControl := fun args p => (Ok "", p ++ [SetControl args]);
  getControl := fun args p => (Ok (String.concat "," args), p ++ [GetControl args]);
  xp_write := fun filename flags p => (Ok "", p ++ [WriteFile filename flags])
|}.

(** The sample instance, on the second vendor. *)
Definition sample_self_latest : @XpressPersistent recording_latest :=
  @Build_XpressPersistent recording_latest
    sample_model
    [Addcols {| objx := [Const 0]; mstart := [0; 0]; mrwind := [];
                dmatval := []; bdl := [Some 1%Q]; bdu := [Some 1%Q];
                names := ["y"]; types := ["B"] |};
     Addcols {| objx := [Const 0]; mstart := [0; 0]; mrwind := [];
                dmatval := []; bdl := [None]; bdu := [None];
                names := ["z"]; types := ["C"] |}]
    tt
    {[ 6 := 0; 7 := 1 ]}
    {[ 0 := 6; 1 := 7 ]}
    {[ 1 := 11; 2 := 12 ]}
    {[ 1 := ∅; 2 := ∅ ]}
    {[ 6 := 0; 7 := 0 ]}.

(** The option names each configuration builder declares. *)
Definition OA_option_names : list string :=
  [ "init_strategy"; "custom_init_disjuncts"; "max_slack"; "OA_penalty_factor";
    "set_cover_iterlim"; "master_problem_transformation";
    "call_before_master_solve"; "call_after_master_solve";
    "subproblem_initialization_method"; "call_before_subproblem_solve";
    "call_after_subproblem_solve"; "call_after_subproblem_feasible";
    "round_discrete_vars"; "force_subproblem_nlp"; "mip_presolve";
    "subproblem_presolve"; "max_fbbt_iterations"; "tighten_nlp_var_bounds";
    "calc_disjunctive_bounds"; "obbt_disjunctive_bounds" ].

Definition mip_solver_option_names : list string :=
  [ "mip_solver"; "mip_solver_args" ].

Definition nlp_solver_option_names : list string :=
  [ "nlp_solver"; "nlp_solver_args"; "minlp_solver"; "minlp_solver_args";
    "local_minlp_solver"; "local_minlp_solver_args" ].

(** A run of declarations, one after the other, as a builder makes them:
    each object is built, then declared. *)
Fixpoint declare_all (steps : list (string * Res config_item))
    : M (gmap string config_item) unit :=
  match steps with
  | [] => ret tt
  | [(name, arg)] => config <- liftR arg ;; declare name config
  | (name, arg) :: rest =>
      config <- liftR arg ;; declare name config ;; declare_all rest
  end.

(** A solver factory that knows the four default solvers of GDPopt and one
    persistent solver, a second one that does not know ['bonmin'], and
    values for the constructions the module does not make. *)
Definition sample_SolverFactory (val : string) : solver_object :=
  if bool_decide (val ∈ ["gurobi"; "ipopt"; "baron"; "bonmin"])
  then {| isinstance_UnknownSolver := false; isinstance_PersistentSolver := false |}
  else if String.eqb val "gurobi_persistent"
  then {| isinstance_UnknownSolver := false; isinstance_PersistentSolver := true |}
  else {| isinstance_UnknownSolver := true; isinstance_PersistentSolver := false |}.

Definition sample_SolverFactory_without_bonmin (val : string) : solver_object :=
  if String.eqb val "bonmin"
  then {| isinstance_UnknownSolver := true; isinstance_PersistentSolver := false |}
  else sample_SolverFactory val.

Definition sample_ConfigValue_other (default : pydefault) (dom : domain)
    : Res pydefault :=
  Raise (TypeError "not interpreted").

Definition sample_ConfigList_other (default : pydefault) (dom : domain)
    : Res config_item :=
  Raise (TypeError "not interpreted").

(** ** Properties *)

(** The wrapper's own bookkeeping: every attribute but the solver model. *)
Definition same_bookkeeping {ext : Externals} (self self' : XpressPersistent) : Prop :=
  _pyomo_model self' = _pyomo_model self /\
  _symbol_map self' = _symbol_map self /\
  _pyomo_var_to_solver_var_map self' = _pyomo_var_to_solver_var_map self /\
  _solver_var_to_pyomo_var_map self' = _solver_var_to_pyomo_var_map self /\
  _pyomo_con_to_solver_con_map self' = _pyomo_con_to_solver_con_map self /\
  _vars_referenced_by_con self' = _vars_referenced_by_con self /\
  _referenced_variables self' = _referenced_variables self.

(** The three dictionaries [add_column] assigns to at its end. *)
Definition column_maps {ext : Externals} (self : XpressPersistent)
    : gmap nat nat * gmap nat nat * gmap nat nat :=
  (_pyomo_var_to_solver_var_map self, _solver_var_to_pyomo_var_map self,
   _referenced_variables self).

(** One round of the loop of [add_column], on the model and on
    [_vars_referenced_by_con]. *)
Definition add_to_body (var : Var) (m : PyomoModel) (p : expr * nat) : PyomoModel :=
  iadd_con_body p.2 (ProductExpression p.1 (VarData var)) m.

Definition add_to_referenced (var : Var) (refs : gmap nat (gset nat))
    (p : expr * nat) : gmap nat (gset nat) :=
  match refs !! p.2 with
  | Some s => <[p.2 := {[var_id var]} ∪ s]> refs
  | None => refs
  end.

(** The attributes the loop of [add_column] does not assign to. *)
Definition loop_frame {ext : Externals} (self self' : XpressPersistent) : Prop :=
  _solver_model self' = _solver_model self /\
  _symbol_map self' = _symbol_map self /\
  _pyomo_con_to_solver_con_map self' = _pyomo_con_to_solver_con_map self /\
  column_maps self' = column_maps self.

(** The bounds [add_column] and [update_var] compute for a variable. *)
Definition bounds_of {ext : Externals} (var : Var) : option Q * option Q :=
  if is_fixed var then (var_value var, var_value var)
  else (match var_lb var with Some l => Some l | None => Some (- xpress_infinity)%Q end,
        match var_ub var with Some u => Some u | None => Some xpress_infinity end).

(** Two dictionaries that are inverse to each other. *)
Definition mutual_inverses (f g : gmap nat nat) : Prop :=
  forall k v, f !! k = Some v <-> g !! v = Some k.

(** A relation between the state before and the state after that a
    computation keeps, whatever its outcome; and the same for the runs that
    raise only. *)
Definition preserves {S A : Type} (R : S -> S -> Prop) (m : M S A) : Prop :=
  forall s r s', m s = (r, s') -> R s s'.

Definition preserves_on_raise {S A : Type} (R : S -> S -> Prop) (m : M S A) : Prop :=
  forall s e s', m s = (Raise e, s') -> R s s'.

(** Parts of an [XpressPersistent] instance that a method leaves alone. *)
Definition same_con_map {ext : Externals} (self self' : XpressPersistent) : Prop :=
  _pyomo_con_to_solver_con_map self' = _pyomo_con_to_solver_con_map self.

Definition same_column_maps {ext : Externals} (self self' : XpressPersistent) : Prop :=
  column_maps self' = column_maps self.

Definition same_solver_model {ext : Externals} (self self' : XpressPersistent) : Prop :=
  _solver_model self' = _solver_model self.

Definition same_objectives {ext : Externals} (self self' : XpressPersistent) : Prop :=
  objectives (_pyomo_model self') = objectives (_pyomo_model self) /\
  obj_expr (_pyomo_model self') = obj_expr (_pyomo_model self).

Definition same_body {ext : Externals} (c : nat) (self self' : XpressPersistent) : Prop :=
  con_body (_pyomo_model self') c = con_body (_pyomo_model self) c.

(** The declarations each configuration builder makes, in order, as data:
    the calls that build the objects, and the objects a builder leaves in
    the block when every call returns; and the names of the two builders
    not listed above. *)
Section GDPoptDeclarations.
Variable SolverFactory : string -> solver_object.
Variable valid_init_strategies_keys : list string.
Variable ConfigValue_other : pydefault -> domain -> Res pydefault.
Variable ConfigList_other : pydefault -> domain -> Res config_item.

Definition OA_steps : list (string * Res config_item) :=
  let ConfigValue := ConfigValue SolverFactory ConfigValue_other in
  let ConfigList := ConfigList ConfigList_other in
  [ ("init_strategy",
     ConfigValue (DStr "set_covering") (In valid_init_strategies_keys));
    ("custom_init_disjuncts", ConfigList DNone NoDomain);
    ("max_slack", ConfigValue (DInt 1000) NonNegativeFloat);
    ("OA_penalty_factor", ConfigValue (DInt 1000) NonNegativeFloat);
    ("set_cover_iterlim", ConfigValue (DInt 8) NonNegativeInt);
    ("master_problem_transformation", ConfigValue (DStr "gdp.bigm") NoDomain);
    ("call_before_master_solve", ConfigValue (DCallable "_DoNothing") NoDomain);
    ("call_after_master_solve", ConfigValue (DCallable "_DoNothing") NoDomain);
    ("subproblem_initialization_method",
     ConfigValue (DCallable "restore_vars_to_original_values") NoDomain);
    ("call_before_subproblem_solve", ConfigValue (DCallable "_DoNothing") NoDomain);
    ("call_after_subproblem_solve", ConfigValue (DCallable "_DoNothing") NoDomain);
    ("call_after_subproblem_feasible", ConfigValue (DCallable "_DoNothing") NoDomain);
    ("round_discrete_vars", ConfigValue (DBool true) NoDomain);
    ("force_subproblem_nlp", ConfigValue (DBool false) NoDomain);
    ("mip_presolve", ConfigValue (DBool true) Dbool);
    ("subproblem_presolve", ConfigValue (DBool true) Dbool);
    ("max_fbbt_iterations", ConfigValue (DInt 3) PositiveInt);
    ("tighten_nlp_var_bounds", ConfigValue (DBool false) Dbool);
    ("calc_disjunctive_bounds", ConfigValue (DBool false) Dbool);
    ("obbt_disjunctive_bounds", ConfigValue (DBool false) Dbool) ].

Definition BB_steps : list (string * Res config_item) :=
  let ConfigValue := ConfigValue SolverFactory ConfigValue_other in
  [ ("check_sat", ConfigValue (DBool false) Dbool);
    ("solve_local_rnGDP", ConfigValue (DBool false) Dbool) ].

Definition mip_solver_steps : list (string * Res config_item) :=
  let ConfigValue := ConfigValue SolverFactory ConfigValue_other in
  [ ("mip_solver", ConfigValue (DStr "gurobi") D_valid_solvers);
    ("mip_solver_args", Ok (ConfigBlock true)) ].

Definition nlp_solver_steps : list (string * Res config_item) :=
  let ConfigValue := ConfigValue SolverFactory ConfigValue_other in
  [ ("nlp_solver", ConfigValue (DStr "ipopt") D_valid_solvers);
    ("nlp_solver_args", Ok (ConfigBlock true));
    ("minlp_solver", ConfigValue (DStr "baron") D_valid_solvers);
    ("minlp_solver_args", Ok (ConfigBlock true));
    ("local_minlp_solver", ConfigValue (DStr "bonmin") D_valid_solvers);
    ("local_minlp_solver_args", Ok (ConfigBlock true)) ].

Definition tolerance_steps : list (string * Res config_item) :=
  let ConfigValue := ConfigValue SolverFactory ConfigValue_other in
  [ ("bound_tolerance", ConfigValue (DFloat (1 # 1000000)) NonNegativeFloat);
    ("small_dual_tolerance", ConfigValue (DFloat (1 # 100000000)) NoDomain);
    ("integer_tolerance", ConfigValue (DFloat (1 # 100000)) NoDomain);
    ("constraint_tolerance", ConfigValue (DFloat (1 # 1000000)) NoDomain);
    ("variable_tolerance", ConfigValue (DFloat (1 # 100000000)) NoDomain);
    ("zero_tolerance", ConfigValue (DFloat (1 # 1000000000000000)) NoDomain) ].

(** The five builders of [config_options.py]. *)
Definition gdpopt_builders : list (M (gmap string config_item) unit) :=
  [ _add_OA_configs SolverFactory valid_init_strategies_keys
      ConfigValue_other ConfigList_other;
    _add_BB_configs SolverFactory ConfigValue_other;
    _add_mip_solver_configs SolverFactory ConfigValue_other;
    _add_nlp_solver_configs SolverFactory ConfigValue_other;
    _add_tolerance_configs SolverFactory ConfigValue_other ].

(** The domains of the module accept the defaults they are given when
    [SolverFactory] knows the four default solvers and ['set_covering'] is
    an initialization strategy. *)
Definition defaults_accepted : Prop :=
  "set_covering" ∈ valid_init_strategies_keys /\
  _valid_solvers SolverFactory "gurobi" = Ok "gurobi" /\
  _valid_solvers SolverFactory "ipopt" = Ok "ipopt" /\
  _valid_solvers SolverFactory "baron" = Ok "baron" /\
  _valid_solvers SolverFactory "bonmin" = Ok "bonmin".

End GDPoptDeclarations.

Definition OA_items (valid_init_strategies_keys : list string)
    : list (string * config_item) :=
  [ ("init_strategy",
     ConfigValue_object (DStr "set_covering") (In valid_init_strategies_keys)
       (DStr "set_covering"));
    ("custom_init_disjuncts", ConfigList_object DNone NoDomain);
    ("max_slack", ConfigValue_object (DInt 1000) NonNegativeFloat (DFloat 1000));
    ("OA_penalty_factor",
     ConfigValue_object (DInt 1000) NonNegativeFloat (DFloat 1000));
    ("set_cover_iterlim", ConfigValue_object (DInt 8) NonNegativeInt (DInt 8));
    ("master_problem_transformation",
     ConfigValue_object (DStr "gdp.bigm") NoDomain (DStr "gdp.bigm"));
    ("call_before_master_solve",
     ConfigValue_object (DCallable "_DoNothing") NoDomain (DCallable "_DoNothing"));
    ("call_after_master_solve",
     ConfigValue_object (DCallable "_DoNothing") NoDomain (DCallable "_DoNothing"));
    ("subproblem_initialization_method",
     ConfigValue_object (DCallable "restore_vars_to_original_values") NoDomain
       (DCallable "restore_vars_to_original_values"));
    ("call_before_subproblem_solve",
     ConfigValue_object (DCallable "_DoNothing") NoDomain (DCallable "_DoNothing"));
    ("call_after_subproblem_solve",
     ConfigValue_object (DCallable "_DoNothing") NoDomain (DCallable "_DoNothing"));
    ("call_after_subproblem_feasible",
     ConfigValue_object (DCallable "_DoNothing") NoDomain (DCallable "_DoNothing"));
    ("round_discrete_vars", ConfigValue_object (DBool true) NoDomain (DBool true));
    ("force_subproblem_nlp", ConfigValue_object (DBool false) NoDomain (DBool false));
    ("mip_presolve", ConfigValue_object (DBool true) Dbool (DBool true));
    ("subproblem_presolve", ConfigValue_object (DBool true) Dbool (DBool true));
    ("max_fbbt_iterations", ConfigValue_object (DInt 3) PositiveInt (DInt 3));
    ("tighten_nlp_var_bounds", ConfigValue_object (DBool false) Dbool (DBool false));
    ("calc_disjunctive_bounds", ConfigValue_object (DBool false) Dbool (DBool false));
    ("obbt_disjunctive_bounds", ConfigValue_object (DBool false) Dbool (DBool false)) ].

Definition BB_items : list (string * config_item) :=
  [ ("check_sat", ConfigValue_object (DBool false) Dbool (DBool false));
    ("solve_local_rnGDP", ConfigValue_object (DBool false) Dbool (DBool false)) ].

Definition mip_solver_items : list (string * config_item) :=
  [ ("mip_solver",
     ConfigValue_object (DStr "gurobi") D_valid_solvers (DStr "gurobi"));
    ("mip_solver_args", ConfigBlock true) ].

Definition nlp_solver_items : list (string * config_item) :=
  [ ("nlp_solver", ConfigValue_object (DStr "ipopt") D_valid_solvers (DStr "ipopt"));
    ("nlp_solver_args", ConfigBlock true);
    ("minlp_solver", ConfigValue_object (DStr "baron") D_valid_solvers (DStr "baron"));
    ("minlp_solver_args", ConfigBlock true);
    ("local_minlp_solver",
     ConfigValue_object (DStr "bonmin") D_valid_solvers (DStr "bonmin"));
    ("local_minlp_solver_args", ConfigBlock true) ].

Definition tolerance_items : list (string * config_item) :=
  [ ("bound_tolerance",
     ConfigValue_object (DFloat (1 # 1000000)) NonNegativeFloat (DFloat (1 # 1000000)));
    ("small_dual_tolerance",
     ConfigValue_object (DFloat (1 # 100000000)) NoDomain (DFloat (1 # 100000000)));
    ("integer_tolerance",
     ConfigValue_object (DFloat (1 # 100000)) NoDomain (DFloat (1 # 100000)));
    ("constraint_tolerance",
     ConfigValue_object (DFloat (1 # 1000000)) NoDomain (DFloat (1 # 1000000)));
    ("variable_tolerance",
     ConfigValue_object (DFloat (1 # 100000000)) NoDomain (DFloat (1 # 100000000)));
    ("zero_tolerance",
     ConfigValue_object (DFloat (1 # 1000000000000000)) NoDomain
       (DFloat (1 # 1000000000000000))) ].

(** The calls that build the given objects without fail. *)
Definition built (items : list (string * config_item))
    : list (string * Res config_item) :=
  (fun item => (item.1, Ok item.2)) <$> items.

Definition BB_option_names : list string := [ "check_sat"; "solve_local_rnGDP" ].

Definition tolerance_option_names : list string :=
  [ "bound_tolerance"; "small_dual_tolerance"; "integer_tolerance";
    "constraint_tolerance"; "variable_tolerance"; "zero_tolerance" ].

Definition gdpopt_option_names : list string :=
  OA_option_names ++ BB_option_names ++ mip_solver_option_names
    ++ nlp_solver_option_names ++ tolerance_option_names.

(** A run of builders one after the other on the same block. *)
Fixpoint run_builders (builders : list (M (gmap string config_item) unit))
    : M (gmap string config_item) unit :=
  match builders with
  | [] => ret tt
  | b :: rest => b ;; run_builders rest
  end.

(** The block after a run of declarations that all succeed. *)
Definition declared (CONFIG : gmap string config_item)
    (items : list (string * config_item)) : gmap string config_item :=
  foldl (fun C p => <[p.1 := p.2]> C) CONFIG items.

(** A name that [declare] takes as it is: no space to replace and none of
    the characters it refuses. *)
Definition plain_name (name : string) : bool :=
  negb (str_contains " " name) &&
  negb (str_contains "." name || str_contains "[" name || str_contains "]" name).

Example convert_native : _convert_to_const (Const 2) = Ok (Const 2).
Proof. reflexivity. Qed.

Example convert_param : _convert_to_const sample_p = Ok (Const 3).
Proof. reflexivity. Qed.

Example convert_product :
  _convert_to_const (ProductExpression (Const 2) sample_p) = Raise (NameError "obj_term").
Proof. reflexivity. Qed.

Example update_var_sample :
  skipn 2 (_solver_model (update_var sample_y sample_self).2) =
  [Chgbounds [0; 0] ["L"; "U"] [Some 1%Q; Some 1%Q]; Chgcoltype [0] ["B"]].
Proof. vm_compute. reflexivity. Qed.

Example add_column_sample :
  skipn 2 (_solver_model
             (add_column sample_x (Const 2) [1; 2] [sample_a; Const 7] sample_self).2) =
  [Addcols {| objx := [Const 2]; mstart := [0; 2]; mrwind := [11; 12];
              dmatval := [Const 5; Const 7]; bdl := [Some 0%Q];
              bdu := [Some 100000000000000000000%Q];
              names := ["x"]; types := ["C"] |};
   GetIndexFromName 2 "x"; GetVariable 2].
Proof. vm_compute. reflexivity. Qed.

(** *** [_convert_to_const] *)

(** C5: [_convert_to_const] returns [val] itself on a native number and
    [value(val)] on an object that is not an expression; on an expression
    it does not return the evaluated value: the lookup of [obj_term] raises
    [NameError]. *)
Theorem convert_to_const_cases (val : expr) :
  _convert_to_const val =
  if is_native_numeric val then Ok val
  else if is_expression_type val then Raise (NameError "obj_term")
  else as_const (value val).
Proof.
  unfold _convert_to_const.
  destruct (is_native_numeric val); [reflexivity|].
  destruct (is_expression_type val); reflexivity.
Qed.

(** *** [update_var] *)

Section XpressPersistentProperties.
Context {ext : Externals}.

(** C10: on a variable that is not a key of [_pyomo_var_to_solver_var_map],
    [update_var] raises [ValueError] and leaves the instance as it was: no
    method of the solver model is called, no map is changed. *)
Theorem update_var_unknown_var (var : Var) (self : XpressPersistent) :
  _pyomo_var_to_solver_var_map self !! var_id var = None ->
  update_var var self =
  (Raise (ValueError ("The Var provided to compile_var needs to be added first: "
                        +:+ var_name var)), self).
Proof.
  intros Hnew. unfold update_var, bind, gets. rewrite Hnew. reflexivity.
Qed.

(** C4, amended: for a variable that is a key of
    [_pyomo_var_to_solver_var_map] and that is binary, integer or
    continuous, [update_var] calls [chgbounds] on the variable's column
    with the variable's value as both bounds when it is fixed, and otherwise
    with its declared bounds, minus or plus [xpress.infinity] standing for
    an absent one; then it calls [chgcoltype] with ["B"], ["I"] or ["C"],
    binary tested before integer and integer before continuous.  For a key
    of any other domain it raises [ValueError] and calls nothing. *)
Theorem update_var_calls (var : Var) (xpress_var : xvar) (self : XpressPersistent) :
  _pyomo_var_to_solver_var_map self !! var_id var = Some xpress_var ->
  let lb :=
    if is_fixed var then var_value var
    else match var_lb var with
         | Some l => Some l
         | None => Some (- xpress_infinity)%Q
         end in
  let ub :=
    if is_fixed var then var_value var
    else match var_ub var with
         | Some u => Some u
         | None => Some xpress_infinity
         end in
  let qctype :=
    if is_binary var then "B" else if is_integer var then "I" else "C" in
  if is_binary var || is_integer var || is_continuous var
  then
    update_var var self =
    (solver_call (chgbounds [xpress_var; xpress_var] ["L"; "U"] [lb; ub]) ;;
     solver_call (chgcoltype [xpress_var] [qctype])) self
  else
    update_var var self =
    (Raise (ValueError ("Variable domain type is not recognized for "
                          +:+ var_domain var)), self).
Proof.
  intros Hkey lb ub qctype. subst lb ub qctype.
  destruct (is_binary var) eqn:Hb, (is_integer var) eqn:Hi,
           (is_continuous var) eqn:Hc; simpl.
  all: unfold update_var, bind at 1, gets; rewrite Hkey.
  all: unfold _xpress_chgcoltype_from_var, liftR, bind at 1.
  all: rewrite Hb, ?Hi, ?Hc; unfold has_lb, has_ub.
  all: destruct (is_fixed var), (var_lb var), (var_ub var); reflexivity.
Qed.

End XpressPersistentProperties.

(** Witness of C10: [x] has not been added to the sample instance. *)
Lemma update_var_unknown_var_witness :
  update_var sample_x sample_self =
  (Raise (ValueError "The Var provided to compile_var needs to be added first: x"),
   sample_self).
Proof.
  apply (update_var_unknown_var (ext := recording) sample_x sample_self).
  reflexivity.
Defined.

(** Witness of C4: [y] is column 0, binary and fixed at 1. *)
Lemma update_var_calls_witness :
  update_var sample_y sample_self =
  (solver_call (chgbounds [0; 0] ["L"; "U"] [Some 1%Q; Some 1%Q]) ;;
   solver_call (chgcoltype [0] ["B"])) sample_self.
Proof.
  apply (update_var_calls (ext := recording) sample_y 0 sample_self).
  reflexivity.
Defined.

(** Counterexample to C4 as stated: [z] has been added to the solver, but
    its domain is none of the three; [update_var] raises [ValueError] and
    calls neither [chgbounds] nor [chgcoltype]. *)
Lemma update_var_unrecognized_domain_counterexample :
  _pyomo_var_to_solver_var_map sample_self !! var_id sample_z = Some 1 /\
  update_var sample_z sample_self =
  (Raise (ValueError "Variable domain type is not recognized for Any"), sample_self).
Proof. vm_compute. split; reflexivity. Qed.

(** *** The pass-through methods *)

(** C2: [get_xpress_attribute] and [get_xpress_control] return what
    [getAttrib] and [getControl] return on the same arguments,
    [set_xpress_control] calls [setControl] and [write] calls the solver
    model's [write] on the same arguments; the solver model is left as the
    vendor's method leaves it and no other attribute of the instance
    changes. *)
Theorem pass_through_methods {ext : Externals} (args : list pyobj)
    (filename flags : string) (self : XpressPersistent) :
  ((get_xpress_attribute args self).1 = (getAttrib args (_solver_model self)).1 /\
   _solver_model (get_xpress_attribute args self).2
     = (getAttrib args (_solver_model self)).2 /\
   same_bookkeeping self (get_xpress_attribute args self).2) /\
  ((get_xpress_control args self).1 = (getControl args (_solver_model self)).1 /\
   _solver_model (get_xpress_control args self).2
     = (getControl args (_solver_model self)).2 /\
   same_bookkeeping self (get_xpress_control args self).2) /\
  ((set_xpress_control args self).1
     = match (setControl args (_solver_model self)).1 with
       | Ok _ => Ok tt
       | Raise e => Raise e
       end /\
   _solver_model (set_xpress_control args self).2
     = (setControl args (_solver_model self)).2 /\
   same_bookkeeping self (set_xpress_control args self).2) /\
  ((write filename (Some flags) self).1
     = match (xp_write filename flags (_solver_model self)).1 with
       | Ok _ => Ok tt
       | Raise e => Raise e
       end /\
   _solver_model (write filename (Some flags) self).2
     = (xp_write filename flags (_solver_model self)).2 /\
   same_bookkeeping self (write filename (Some flags) self).2).
Proof.
  unfold get_xpress_attribute, get_xpress_control, set_xpress_control, write.
  unfold bind, ret, solver_call. simpl.
  destruct (getAttrib args (_solver_model self)) as [ra pa].
  destruct (getControl args (_solver_model self)) as [rc pc].
  destruct (setControl args (_solver_model self)) as [[rs|es] ps].
  all: destruct (xp_write filename flags (_solver_model self)) as [[rw|ew] pw].
  all: simpl; unfold same_bookkeeping; simpl; tauto.
Qed.

(** *** [_valid_solvers] *)

(** C3: [_valid_solvers(val)] raises [ValueError] exactly when
    [SolverFactory(val)] is an [UnknownSolver] or a [PersistentSolver], and
    returns [val] in every other case. *)
Theorem valid_solvers_spec (SolverFactory : string -> solver_object) (val : string) :
  ((exists msg, _valid_solvers SolverFactory val = Raise (ValueError msg)) <->
   (isinstance_UnknownSolver (SolverFactory val) = true \/
    isinstance_PersistentSolver (SolverFactory val) = true)) /\
  (~ (isinstance_UnknownSolver (SolverFactory val) = true \/
      isinstance_PersistentSolver (SolverFactory val) = true) ->
   _valid_solvers SolverFactory val = Ok val).
Proof.
  unfold _valid_solvers.
  destruct (isinstance_UnknownSolver (SolverFactory val)) eqn:Hu;
    destruct (isinstance_PersistentSolver (SolverFactory val)) eqn:Hp.
  all: split; [split|].
  all: try (intros _; eauto; fail).
  all: try (intros H; exfalso; apply H; auto; fail).
  all: try (intros [msg Hmsg]; discriminate Hmsg).
  all: try (intros [H|H]; discriminate H).
  all: try reflexivity.
Qed.

(** *** [load] *)

(** C8: [load()] registers [AppsiBuilder] under ['appsi'] in the
    [ExtensionBuilderFactory], and in the [SolverFactory] the classes
    [Gurobi], [Cplex], [Ipopt], [Cbc] and [Highs] under ['gurobi'],
    ['cplex'], ['ipopt'], ['cbc'] and ['highs']; no other name of either
    factory is touched. *)
Theorem load_registrations (fs : factories) :
  exists fs',
    load fs = (Ok tt, fs') /\
    _cls (ExtensionBuilderFactory fs') !! "appsi" = Some AppsiBuilder /\
    (forall name, name <> "appsi" ->
       _cls (ExtensionBuilderFactory fs') !! name
         = _cls (ExtensionBuilderFactory fs) !! name) /\
    _cls (SolverFactory fs') !! "gurobi" = Some Gurobi /\
    _cls (SolverFactory fs') !! "cplex" = Some Cplex /\
    _cls (SolverFactory fs') !! "ipopt" = Some Ipopt /\
    _cls (SolverFactory fs') !! "cbc" = Some Cbc /\
    _cls (SolverFactory fs') !! "highs" = Some Highs /\
    (forall name,
       name <> "gurobi" -> name <> "cplex" -> name <> "ipopt" ->
       name <> "cbc" -> name <> "highs" ->
       _cls (SolverFactory fs') !! name = _cls (SolverFactory fs) !! name).
Proof.
  eexists. split; [reflexivity|]. simpl.
  repeat split.
  - apply lookup_insert_eq.
  - intros name Hne. by rewrite lookup_insert_ne.
  - by repeat (rewrite lookup_insert_ne by done); rewrite lookup_insert_eq.
  - by repeat (rewrite lookup_insert_ne by done); rewrite lookup_insert_eq.
  - by repeat (rewrite lookup_insert_ne by done); rewrite lookup_insert_eq.
  - by repeat (rewrite lookup_insert_ne by done); rewrite lookup_insert_eq.
  - by rewrite lookup_insert_eq.
  - intros name H1 H2 H3 H4 H5. by repeat (rewrite lookup_insert_ne by done).
Qed.

(** *** [ScipyRootSolver.solve] *)

(** C6: on a model with no active objective, [solve] adds no objective and
    builds no [PyomoNLP]: it raises [NameError] at [pyo.Objective], the
    module importing no [pyo], and the model is left as it was. *)
Theorem solve_no_active_objective
    (unique_component_name : gmap string component -> string -> string)
    (nlp : Type) (PyomoNLP : gmap string component -> Res nlp)
    (model : gmap string component) :
  component_data_objects_Objective model = [] ->
  solve unique_component_name nlp PyomoNLP model = (Raise (NameError "pyo"), model).
Proof.
  intros Hnone. unfold solve, bind, gets. rewrite Hnone. reflexivity.
Qed.

(** Witness of C6: a model whose only objective is deactivated has no
    active objective. *)
Lemma solve_no_active_objective_witness :
  solve (fun _ prefix => prefix) unit (fun _ => Ok tt)
        {[ "cost" := ObjectiveComponent false (Const 1) ]}
  = (Raise (NameError "pyo"), {[ "cost" := ObjectiveComponent false (Const 1) ]}).
Proof.
  apply (solve_no_active_objective (fun _ prefix => prefix) unit (fun _ => Ok tt)
           {[ "cost" := ObjectiveComponent false (Const 1) ]}).
  vm_compute. reflexivity.
Defined.

(** With an active objective, [solve] declares and removes nothing: the
    model is the same after the call, whatever [PyomoNLP] answers. *)
Theorem solve_with_active_objective
    (unique_component_name : gmap string component -> string -> string)
    (nlp : Type) (PyomoNLP : gmap string component -> Res nlp)
    (model : gmap string component) :
  component_data_objects_Objective model <> [] ->
  (solve unique_component_name nlp PyomoNLP model).2 = model /\
  (solve unique_component_name nlp PyomoNLP model).1
    = match PyomoNLP model with Ok _ => Ok tt | Raise e => Raise e end.
Proof.
  intros Hsome. unfold solve, bind, gets, liftR, ret.
  destruct (component_data_objects_Objective model) as [|o objs]; [done|].
  simpl. destruct (PyomoNLP model); auto.
Qed.

(** Witness: a model with the active objective [cost]. *)
Lemma solve_with_active_objective_witness :
  (solve (fun _ prefix => prefix) unit (fun _ => Ok tt)
         {[ "cost" := ObjectiveComponent true (Const 1) ]}).2
    = {[ "cost" := ObjectiveComponent true (Const 1) ]} /\
  (solve (fun _ prefix => prefix) unit (fun _ => Ok tt)
         {[ "cost" := ObjectiveComponent true (Const 1) ]}).1 = Ok tt.
Proof.
  apply (solve_with_active_objective (fun _ prefix => prefix) unit (fun _ => Ok tt)
           {[ "cost" := ObjectiveComponent true (Const 1) ]}).
  vm_compute. intros Hnil. discriminate Hnil.
Defined.

(** *** The GDPopt configuration builders *)

Lemma bind_Ok {S A B : Type} (m : M S A) (k : A -> M S B) (s s' : S) (b : B) :
  bind m k s = (Ok b, s') ->
  exists a s1, m s = (Ok a, s1) /\ k a s1 = (Ok b, s').
Proof.
  unfold bind. destruct (m s) as [[a|e] s1]; intros Hrun; [eauto|discriminate].
Qed.

Lemma str_replace_absent (old new : ascii) (s : string) :
  str_contains old s = false -> str_replace old new s = s.
Proof.
  induction s as [|c rest IH]; simpl; [reflexivity|].
  intros Habsent. apply orb_false_iff in Habsent as [Hc Hrest].
  by rewrite Hc, IH.
Qed.

(** On a plain name, [declare] looks the name itself up. *)
Lemma declare_plain (name : string) (config : config_item)
    (CONFIG : gmap string config_item) :
  plain_name name = true ->
  declare name config CONFIG =
  match CONFIG !! name with
  | Some _ =>
      (Raise (ValueError ("duplicate config '" +:+ name +:+ "' defined")), CONFIG)
  | None => (Ok tt, <[name := config]> CONFIG)
  end.
Proof.
  unfold plain_name, declare. intros Hplain.
  apply andb_true_iff in Hplain as [Hspace Hchars].
  apply negb_true_iff in Hspace, Hchars.
  by rewrite (str_replace_absent _ _ _ Hspace), Hchars.
Qed.

Lemma declare_fresh (name : string) (config : config_item)
    (CONFIG : gmap string config_item) :
  plain_name name = true ->
  CONFIG !! name = None ->
  declare name config CONFIG = (Ok tt, <[name := config]> CONFIG).
Proof. intros Hplain Hfresh. rewrite declare_plain by exact Hplain. by rewrite Hfresh. Qed.

Lemma declare_Ok (name : string) (config : config_item)
    (CONFIG CONFIG' : gmap string config_item) :
  plain_name name = true ->
  declare name config CONFIG = (Ok tt, CONFIG') ->
  CONFIG !! name = None /\ CONFIG' = <[name := config]> CONFIG.
Proof.
  intros Hplain. rewrite declare_plain by exact Hplain.
  destruct (CONFIG !! name); [discriminate|]. by intros [= <-].
Qed.

Lemma declare_all_cons (name : string) (arg : Res config_item)
    (rest : list (string * Res config_item)) (CONFIG : gmap string config_item) :
  declare_all ((name, arg) :: rest) CONFIG
  = (config <- liftR arg ;; declare name config ;; declare_all rest) CONFIG.
Proof.
  destruct rest as [|next rest]; [|reflexivity].
  simpl. unfold bind, ret, liftR. destruct arg as [config|e]; [|reflexivity].
  by destruct (declare name config CONFIG) as [[[]|e] C].
Qed.

(** A run of declarations that returns: every name was free, every object
    was built, and the block holds what was there before and the objects
    under their names. *)
Lemma declare_all_Ok (steps : list (string * Res config_item)) :
  Forall (fun step => plain_name step.1 = true) steps ->
  forall CONFIG CONFIG' : gmap string config_item,
    declare_all steps CONFIG = (Ok tt, CONFIG') ->
    CONFIG ⊆ CONFIG' /\
    Forall (fun step =>
              CONFIG !! step.1 = None /\
              exists config, step.2 = Ok config /\ CONFIG' !! step.1 = Some config)
           steps.
Proof.
  induction 1 as [|[name arg] rest Hplain _ IH]; intros CONFIG CONFIG' Hrun.
  - injection Hrun as <-. split; [reflexivity|constructor].
  - rewrite declare_all_cons in Hrun.
    apply bind_Ok in Hrun as (config & C0 & Harg & Hrun).
    unfold liftR in Harg. injection Harg as Harg <-.
    apply bind_Ok in Hrun as ([] & C1 & Hdecl & Hrun).
    apply declare_Ok in Hdecl as [Hfree ->]; [|exact Hplain].
    apply IH in Hrun as [Hsub Hrest].
    assert (CONFIG ⊆ <[name := config]> CONFIG) as Hgrow by by apply insert_subseteq.
    split; [by etrans|]. constructor.
    + split; [exact Hfree|]. exists config. split; [exact Harg|].
      eapply lookup_weaken; [apply lookup_insert_eq|exact Hsub].
    + eapply Forall_impl; [exact Hrest|].
      intros step (Hstep & Hbuilt). split; [|exact Hbuilt].
      eapply lookup_weaken_None; [exact Hstep|exact Hgrow].
Qed.

(** Declarations of objects that are built without fail, under distinct
    plain names that are all free, succeed; the block grows by exactly these
    declarations. *)
Lemma declare_all_fresh (items : list (string * config_item)) :
  Forall (fun n => plain_name n = true) items.*1 ->
  NoDup items.*1 ->
  forall CONFIG : gmap string config_item,
    Forall (fun n => CONFIG !! n = None) items.*1 ->
    declare_all (built items) CONFIG = (Ok tt, declared CONFIG items).
Proof.
  induction items as [|[name item] rest IH]; intros Hplain Hnd CONFIG Hfree;
    [reflexivity|].
  rewrite fmap_cons in Hplain, Hnd, Hfree. simpl in Hplain, Hnd, Hfree.
  apply Forall_cons_1 in Hplain as [Hplain Hplains].
  apply NoDup_cons in Hnd as [Hnotin Hnd].
  apply Forall_cons_1 in Hfree as [Hname Hfree].
  unfold built. rewrite fmap_cons, declare_all_cons. simpl.
  unfold bind at 1, liftR. unfold bind at 1.
  rewrite (declare_fresh name item CONFIG Hplain Hname).
  apply (IH Hplains Hnd).
  apply Forall_forall. intros n Hn.
  rewrite lookup_insert_ne by (intros ->; contradiction).
  by eapply Forall_forall in Hfree.
Qed.

Section GDPoptBuilders.
Variable SolverFactory : string -> solver_object.
Variable valid_init_strategies_keys : list string.
Variable ConfigValue_other : pydefault -> domain -> Res pydefault.
Variable ConfigList_other : pydefault -> domain -> Res config_item.

(** Building an option whose domain is [_valid_solvers] returns exactly when
    [_valid_solvers] accepts the default. *)
Lemma ConfigValue_valid_solvers (val : string) (config : config_item) :
  ConfigValue SolverFactory ConfigValue_other (DStr val) D_valid_solvers = Ok config
  <-> _valid_solvers SolverFactory val = Ok val /\
      config = ConfigValue_object (DStr val) D_valid_solvers (DStr val).
Proof.
  unfold ConfigValue, domain_call, _valid_solvers.
  destruct (isinstance_UnknownSolver (SolverFactory val));
    [|destruct (isinstance_PersistentSolver (SolverFactory val))].
  all: split; [intros [= <-]|intros [Hval ->]]; try discriminate Hval; auto.
Qed.

(** Building an option whose domain is [In(keys)] returns exactly when the
    default is among the keys. *)
Lemma ConfigValue_In (val : string) (keys : list string) (config : config_item) :
  ConfigValue SolverFactory ConfigValue_other (DStr val) (In keys) = Ok config
  <-> val ∈ keys /\ config = ConfigValue_object (DStr val) (In keys) (DStr val).
Proof.
  unfold ConfigValue, domain_call. case_bool_decide as Hin.
  - split; [intros [= <-]|intros [_ ->]]; auto.
  - split; [discriminate|intros [Hval _]; contradiction].
Qed.

(** The builders are runs of declarations. *)
Lemma builders_as_steps :
  gdpopt_builders SolverFactory valid_init_strategies_keys
    ConfigValue_other ConfigList_other
  = map declare_all
      [ OA_steps SolverFactory valid_init_strategies_keys
          ConfigValue_other ConfigList_other;
        BB_steps SolverFactory ConfigValue_other;
        mip_solver_steps SolverFactory ConfigValue_other;
        nlp_solver_steps SolverFactory ConfigValue_other;
        tolerance_steps SolverFactory ConfigValue_other ].
Proof. reflexivity. Qed.

Lemma OA_steps_built :
  "set_covering" ∈ valid_init_strategies_keys ->
  OA_steps SolverFactory valid_init_strategies_keys ConfigValue_other ConfigList_other
  = built (OA_items valid_init_strategies_keys).
Proof.
  intros Hkey. unfold OA_steps.
  by rewrite (proj2 (ConfigValue_In _ _ _) (conj Hkey eq_refl)).
Qed.

Lemma BB_steps_built :
  BB_steps SolverFactory ConfigValue_other = built BB_items.
Proof. reflexivity. Qed.

Lemma mip_solver_steps_built :
  _valid_solvers SolverFactory "gurobi" = Ok "gurobi" ->
  mip_solver_steps SolverFactory ConfigValue_other = built mip_solver_items.
Proof.
  intros Hgurobi. unfold mip_solver_steps.
  by rewrite (proj2 (ConfigValue_valid_solvers _ _) (conj Hgurobi eq_refl)).
Qed.

Lemma nlp_solver_steps_built :
  _valid_solvers SolverFactory "ipopt" = Ok "ipopt" ->
  _valid_solvers SolverFactory "baron" = Ok "baron" ->
  _valid_solvers SolverFactory "bonmin" = Ok "bonmin" ->
  nlp_solver_steps SolverFactory ConfigValue_other = built nlp_solver_items.
Proof.
  intros Hipopt Hbaron Hbonmin. unfold nlp_solver_steps.
  rewrite (proj2 (ConfigValue_valid_solvers _ _) (conj Hipopt eq_refl)).
  rewrite (proj2 (ConfigValue_valid_solvers _ _) (conj Hbaron eq_refl)).
  by rewrite (proj2 (ConfigValue_valid_solvers _ _) (conj Hbonmin eq_refl)).
Qed.

Lemma tolerance_steps_built :
  tolerance_steps SolverFactory ConfigValue_other = built tolerance_items.
Proof. reflexivity. Qed.

(** C7: when a builder returns, it has kept what was declared before and
    the block holds [mip_solver], [nlp_solver], [minlp_solver] and
    [local_minlp_solver] with the defaults ['gurobi'], ['ipopt'], ['baron']
    and ['bonmin'], the domain [_valid_solvers] and the default as value,
    and [init_strategy] with the default ['set_covering'] and the domain
    [In(valid_init_strategies.keys())].  A builder does return on a block in
    which the names it declares are free when its domains accept the
    defaults: when [_valid_solvers] returns on the default solver names,
    and ['set_covering'] is a key of [valid_init_strategies]. *)
Theorem gdpopt_solver_defaults (CONFIG : gmap string config_item) :
  (forall CONFIG',
     _add_mip_solver_configs SolverFactory ConfigValue_other CONFIG = (Ok tt, CONFIG') ->
     CONFIG ⊆ CONFIG' /\
     CONFIG' !! "mip_solver"
       = Some (ConfigValue_object (DStr "gurobi") D_valid_solvers (DStr "gurobi"))) /\
  (Forall (fun n => CONFIG !! n = None) mip_solver_option_names ->
   _valid_solvers SolverFactory "gurobi" = Ok "gurobi" ->
   exists CONFIG',
     _add_mip_solver_configs SolverFactory ConfigValue_other CONFIG = (Ok tt, CONFIG')) /\
  (forall CONFIG',
     _add_nlp_solver_configs SolverFactory ConfigValue_other CONFIG = (Ok tt, CONFIG') ->
     CONFIG ⊆ CONFIG' /\
     CONFIG' !! "nlp_solver"
       = Some (ConfigValue_object (DStr "ipopt") D_valid_solvers (DStr "ipopt")) /\
     CONFIG' !! "minlp_solver"
       = Some (ConfigValue_object (DStr "baron") D_valid_solvers (DStr "baron")) /\
     CONFIG' !! "local_minlp_solver"
       = Some (ConfigValue_object (DStr "bonmin") D_valid_solvers (DStr "bonmin"))) /\
  (Forall (fun n => CONFIG !! n = None) nlp_solver_option_names ->
   _valid_solvers SolverFactory "ipopt" = Ok "ipopt" ->
   _valid_solvers SolverFactory "baron" = Ok "baron" ->
   _valid_solvers SolverFactory "bonmin" = Ok "bonmin" ->
   exists CONFIG',
     _add_nlp_solver_configs SolverFactory ConfigValue_other CONFIG = (Ok tt, CONFIG')) /\
  (forall CONFIG',
     _add_OA_configs SolverFactory valid_init_strategies_keys
       ConfigValue_other ConfigList_other CONFIG = (Ok tt, CONFIG') ->
     CONFIG ⊆ CONFIG' /\
     CONFIG' !! "init_strategy"
       = Some (ConfigValue_object (DStr "set_covering")
                 (In valid_init_strategies_keys) (DStr "set_covering"))) /\
  (Forall (fun n => CONFIG !! n = None) OA_option_names ->
   "set_covering" ∈ valid_init_strategies_keys ->
   exists CONFIG',
     _add_OA_configs SolverFactory valid_init_strategies_keys
       ConfigValue_other ConfigList_other CONFIG = (Ok tt, CONFIG')).
Proof.
  repeat apply conj.
  - intros CONFIG' Hrun.
    apply (declare_all_Ok (mip_solver_steps SolverFactory ConfigValue_other))
      in Hrun as [Hsub Hsteps]; [|by repeat constructor].
    split; [exact Hsub|].
    apply Forall_cons_1 in Hsteps as [(_ & config & Hbuilt & Hlookup) _].
    by apply ConfigValue_valid_solvers in Hbuilt as [_ ->].
  - intros Hfree Hgurobi. eexists.
    change (_add_mip_solver_configs SolverFactory ConfigValue_other)
      with (declare_all (mip_solver_steps SolverFactory ConfigValue_other)).
    rewrite mip_solver_steps_built by exact Hgurobi.
    apply declare_all_fresh; [by repeat constructor| |exact Hfree].
    apply (bool_decide_unpack _). vm_compute. exact I.
  - intros CONFIG' Hrun.
    apply (declare_all_Ok (nlp_solver_steps SolverFactory ConfigValue_other))
      in Hrun as [Hsub Hsteps]; [|by repeat constructor].
    split; [exact Hsub|].
    apply Forall_cons_1 in Hsteps as [(_ & nlp & Hnlp & Hnlp_lookup) Hsteps].
    apply Forall_cons_1 in Hsteps as [_ Hsteps].
    apply Forall_cons_1 in Hsteps as [(_ & minlp & Hminlp & Hminlp_lookup) Hsteps].
    apply Forall_cons_1 in Hsteps as [_ Hsteps].
    apply Forall_cons_1 in Hsteps as [(_ & loc & Hloc & Hloc_lookup) _].
    apply ConfigValue_valid_solvers in Hnlp as [_ ->].
    apply ConfigValue_valid_solvers in Hminlp as [_ ->].
    apply ConfigValue_valid_solvers in Hloc as [_ ->].
    auto.
  - intros Hfree Hipopt Hbaron Hbonmin. eexists.
    change (_add_nlp_solver_configs SolverFactory ConfigValue_other)
      with (declare_all (nlp_solver_steps SolverFactory ConfigValue_other)).
    rewrite nlp_solver_steps_built by assumption.
    apply declare_all_fresh; [by repeat constructor| |exact Hfree].
    apply (bool_decide_unpack _). vm_compute. exact I.
  - intros CONFIG' Hrun.
    apply (declare_all_Ok (OA_steps SolverFactory valid_init_strategies_keys
                             ConfigValue_other ConfigList_other))
      in Hrun as [Hsub Hsteps]; [|by repeat constructor].
    split; [exact Hsub|].
    apply Forall_cons_1 in Hsteps as [(_ & config & Hbuilt & Hlookup) _].
    by apply ConfigValue_In in Hbuilt as [_ ->].
  - intros Hfree Hkey. eexists.
    change (_add_OA_configs SolverFactory valid_init_strategies_keys
              ConfigValue_other ConfigList_other)
      with (declare_all (OA_steps SolverFactory valid_init_strategies_keys
                           ConfigValue_other ConfigList_other)).
    rewrite OA_steps_built by exact Hkey.
    apply declare_all_fresh; [by repeat constructor| |exact Hfree].
    apply (bool_decide_unpack _). vm_compute. exact I.
Qed.

End GDPoptBuilders.

(** Witness of C7: on the empty block every name is free, and the sample
    solver factory knows the default solvers. *)
Lemma gdpopt_solver_defaults_witness :
  exists CONFIG',
    _add_nlp_solver_configs sample_SolverFactory sample_ConfigValue_other ∅
      = (Ok tt, CONFIG') /\
    ∅ ⊆ CONFIG' /\
    CONFIG' !! "nlp_solver"
      = Some (ConfigValue_object (DStr "ipopt") D_valid_solvers (DStr "ipopt")) /\
    CONFIG' !! "minlp_solver"
      = Some (ConfigValue_object (DStr "baron") D_valid_solvers (DStr "baron")) /\
    CONFIG' !! "local_minlp_solver"
      = Some (ConfigValue_object (DStr "bonmin") D_valid_solvers (DStr "bonmin")).
Proof.
  destruct (gdpopt_solver_defaults sample_SolverFactory ["no_init"; "set_covering"]
              sample_ConfigValue_other sample_ConfigList_other ∅)
    as (_ & _ & Hlookups & Hreturns & _).
  destruct Hreturns as [CONFIG' Hrun].
  - apply Forall_forall. intros n _. apply lookup_empty.
  - reflexivity.
  - reflexivity.
  - reflexivity.
  - exists CONFIG'. split; [exact Hrun|]. apply Hlookups. exact Hrun.
Defined.

(** From the empty block the five builders run one after the other. *)
Example gdpopt_builders_run :
  let run :=
    (_add_OA_configs sample_SolverFactory ["no_init"; "set_covering"]
       sample_ConfigValue_other sample_ConfigList_other ;;
     _add_BB_configs sample_SolverFactory sample_ConfigValue_other ;;
     _add_mip_solver_configs sample_SolverFactory sample_ConfigValue_other ;;
     _add_nlp_solver_configs sample_SolverFactory sample_ConfigValue_other ;;
     _add_tolerance_configs sample_SolverFactory sample_ConfigValue_other) ∅ in
  run.1 = Ok tt /\
  size run.2 = 36 /\
  run.2 !! "mip_solver"
    = Some (ConfigValue_object (DStr "gurobi") D_valid_solvers (DStr "gurobi")) /\
  run.2 !! "max_slack"
    = Some (ConfigValue_object (DInt 1000) NonNegativeFloat (DFloat 1000)).
Proof. vm_compute. repeat split. Qed.

(** A second declaration of a name is refused. *)
Example declare_twice :
  ((_add_mip_solver_configs sample_SolverFactory sample_ConfigValue_other ;;
    _add_mip_solver_configs sample_SolverFactory sample_ConfigValue_other) ∅).1
  = Raise (ValueError "duplicate config 'mip_solver' defined").
Proof. vm_compute. reflexivity. Qed.

(** A name with a space is declared under the name with an underscore, and
    then stands in the way of that name. *)
Example declare_with_space :
  let run :=
    (declare "mip solver" (ConfigBlock false) ;;
     _add_mip_solver_configs sample_SolverFactory sample_ConfigValue_other) ∅ in
  run.1 = Raise (ValueError "duplicate config 'mip_solver' defined") /\
  run.2 !! "mip_solver" = Some (ConfigBlock false).
Proof. vm_compute. split; reflexivity. Qed.

(** Where [SolverFactory] does not know ['bonmin'], [_add_nlp_solver_configs]
    raises [ValueError] on the empty block, after four declarations. *)
Example nlp_solver_configs_without_bonmin :
  let run :=
    _add_nlp_solver_configs sample_SolverFactory_without_bonmin
      sample_ConfigValue_other ∅ in
  run.1 = Raise (ValueError "invalid value for configuration") /\
  size run.2 = 4 /\
  run.2 !! "local_minlp_solver" = None.
Proof. vm_compute. repeat split. Qed.

(** *** [add_column] *)

Lemma mutual_inverses_insert (f g : gmap nat nat) (k v : nat) :
  mutual_inverses f g -> f !! k = None -> g !! v = None ->
  mutual_inverses (<[k := v]> f) (<[v := k]> g).
Proof.
  intros Hinv Hk Hv k' v'. unfold mutual_inverses in Hinv.
  destruct (decide (k' = k)) as [->|Hkne]; destruct (decide (v' = v)) as [->|Hvne].
  - by rewrite !lookup_insert_eq.
  - rewrite lookup_insert_eq, lookup_insert_ne by done. split.
    + intros [= ->]. contradiction.
    + intros Hg. apply Hinv in Hg. congruence.
  - rewrite lookup_insert_eq, lookup_insert_ne by done. split.
    + intros Hf. apply Hinv in Hf. congruence.
    + intros [= ->]. contradiction.
  - rewrite !lookup_insert_ne by done. apply Hinv.
Qed.

(** C1: the column forwarded to [addcols] carries [obj_term] itself as its
    objective coefficient, not the constant [_convert_to_const] computes
    from it.  With the parameter [p] (value 3) as [obj_term] the call
    returns, the constraint coefficients are forwarded as the constants 5
    and 7, and [objx] is the [Param] object; with the expression [2*p] as
    [obj_term] the call raises [NameError] after it has changed the
    objective, and [addcols] is not called. *)
Theorem add_column_objx_is_obj_term :
  let run :=
    add_column sample_x sample_p [1; 2] [sample_a; Const 7] sample_self in
  let run2 :=
    add_column sample_x (ProductExpression (Const 2) sample_p) [1; 2]
      [sample_a; Const 7] sample_self in
  run.1 = Ok tt /\
  skipn 2 (_solver_model run.2) =
    [Addcols {| objx := [sample_p]; mstart := [0; 2]; mrwind := [11; 12];
                dmatval := [Const 5; Const 7]; bdl := [Some 0%Q];
                bdu := [Some 100000000000000000000%Q];
                names := ["x"]; types := ["C"] |};
     GetIndexFromName 2 "x"; GetVariable 2] /\
  _convert_to_const sample_p = Ok (Const 3) /\
  sample_p <> Const 3 /\
  run2.1 = Raise (NameError "obj_term") /\
  _solver_model run2.2 = _solver_model sample_self /\
  obj_expr (_pyomo_model run2.2) 0
    = SumExpression (Const 0)
        (ProductExpression (ProductExpression (Const 2) sample_p) (VarData sample_x)).
Proof.
  vm_compute. repeat split. intros Heq. discriminate Heq.
Qed.

(** *** [add_column]: the whole effect of a call that returns *)

Section AddColumnEffects.
Context {ext : Externals}.

Lemma solver_call_Ok {A : Type} (f : problem -> Res A * problem)
    (self self' : XpressPersistent) (a : A) :
  solver_call f self = (Ok a, self') ->
  exists p, f (_solver_model self) = (Ok a, p) /\ self' = set_solver_model p self.
Proof.
  unfold solver_call. destruct (f (_solver_model self)) as [r p].
  intros [= -> <-]. eauto.
Qed.

Lemma symbol_of_Ok (var : Var) (self self' : XpressPersistent) (varname : string) :
  symbol_of var self = (Ok varname, self') ->
  exists sm, getSymbol var (_symbol_map self) = (Ok varname, sm) /\
             self' = set_symbol_map sm self.
Proof.
  unfold symbol_of. destruct (getSymbol var (_symbol_map self)) as [r sm].
  intros [= -> <-]. eauto.
Qed.

(** The loop converts each coefficient, looks up the solver row of each
    constraint, adds [val*var] to the body of the constraint and [var] to
    the variables the constraint references, pair after pair. *)
Lemma add_column_loop_inv (var : Var) (pairs : list (expr * nat)) :
  forall (coeff_list : list expr) (constr_list : list nat)
         (self self' : XpressPersistent) (lists : list expr * list nat),
    add_column_loop var pairs coeff_list constr_list self = (Ok lists, self') ->
    exists cvals rows,
      lists = (coeff_list ++ cvals, constr_list ++ rows) /\
      Forall2 (fun p cval => _convert_to_const p.1 = Ok cval) pairs cvals /\
      Forall2 (fun p row => _pyomo_con_to_solver_con_map self !! p.2 = Some row)
              pairs rows /\
      _pyomo_model self' = fold_left (add_to_body var) pairs (_pyomo_model self) /\
      _vars_referenced_by_con self'
        = fold_left (add_to_referenced var) pairs (_vars_referenced_by_con self) /\
      loop_frame self self'.
Proof.
  induction pairs as [|[val c] rest IH]; intros coeff_list constr_list self self' lists.
  - simpl. unfold ret. intros [= <- <-]. exists [], [].
    rewrite !app_nil_r. repeat split; constructor.
  - simpl. unfold bind at 1, modify at 1. unfold bind at 1, gets at 1. simpl.
    unfold add_to_referenced at 2. simpl.
    destruct (_vars_referenced_by_con self !! c) as [s|] eqn:Hrefs; [|discriminate].
    unfold bind at 1, modify at 1. unfold bind at 1, liftR at 1.
    destruct (_convert_to_const val) as [cval|e] eqn:Hconv; [|discriminate].
    unfold bind at 1, gets at 1. simpl.
    destruct (_pyomo_con_to_solver_con_map self !! c) as [row|] eqn:Hrow; [|discriminate].
    intros Hrest.
    apply IH in Hrest as (cvals & rows & -> & Hcv & Hrows & Hmodel & Hvrefs & Hframe).
    simpl in Hrows, Hmodel, Hvrefs.
    exists (cval :: cvals), (row :: rows).
    rewrite <- !app_assoc. simpl.
    split; [reflexivity|].
    split; [by constructor|].
    split; [by constructor|].
    split; [exact Hmodel|].
    split; [exact Hvrefs|].
    destruct Hframe as (H1 & H2 & H3 & H4). repeat split; assumption.
Qed.

(** A call of [add_column] that returns has: added [obj_term*var] to the
    expression of the active objective, unless [obj_term] is the native
    number zero; added [val*var] to the body of each constraint paired with
    a coefficient [val]; asked the symbol map for the name of [var]; called
    [addcols] on the solver model with one column whose rows are the solver
    rows of the constraints, whose row coefficients are the constants
    [_convert_to_const] gives for the coefficients, and whose objective
    coefficient is [obj_term] as it was passed; and then called
    [getIndexFromName] and [getVariable] to fetch the new solver variable. *)
Theorem add_column_effects (var : Var) (obj_term : expr) (constraints : list nat)
    (coefficients : list expr) (self self' : XpressPersistent) :
  add_column var obj_term constraints coefficients self = (Ok tt, self') ->
  exists (m1 : PyomoModel) (cvals : list expr) (rows : list nat)
         (varname vartype : string) (sm : symbol_map) (index : nat)
         (xpress_var : xvar) (p1 p2 p3 : problem),
    (if is_native_numeric obj_term && eq_zero obj_term
     then m1 = _pyomo_model self
     else exists o,
         find_active_objective (_pyomo_model self) true = Ok (Some o) /\
         m1 = iadd_obj_expr o (ProductExpression obj_term (VarData var))
                (_pyomo_model self)) /\
    _pyomo_model self'
      = fold_left (add_to_body var) (combine coefficients constraints) m1 /\
    _vars_referenced_by_con self'
      = fold_left (add_to_referenced var) (combine coefficients constraints)
          (_vars_referenced_by_con self) /\
    Forall2 (fun p cval => _convert_to_const p.1 = Ok cval)
            (combine coefficients constraints) cvals /\
    Forall2 (fun p row => _pyomo_con_to_solver_con_map self !! p.2 = Some row)
            (combine coefficients constraints) rows /\
    getSymbol var (_symbol_map self) = (Ok varname, sm) /\
    _symbol_map self' = sm /\
    _xpress_chgcoltype_from_var var = Ok vartype /\
    addcols {| objx := [obj_term];
               mstart := [0; length cvals];
               mrwind := rows;
               dmatval := cvals;
               bdl := [(bounds_of var).1];
               bdu := [(bounds_of var).2];
               names := [varname];
               types := [vartype] |} (_solver_model self) = (Ok tt, p1) /\
    getIndexFromName 2 varname p1 = (Ok index, p2) /\
    getVariable index p2 = (Ok xpress_var, p3) /\
    _solver_model self' = p3.
Proof.
  unfold add_column. intros Hrun.
  apply bind_Ok in Hrun as ([] & s1 & Hobj & Hrun).
  assert (exists m1,
             (if is_native_numeric obj_term && eq_zero obj_term
              then m1 = _pyomo_model self
              else exists o,
                  find_active_objective (_pyomo_model self) true = Ok (Some o) /\
                  m1 = iadd_obj_expr o (ProductExpression obj_term (VarData var))
                         (_pyomo_model self)) /\
             s1 = set_pyomo_model m1 self) as (m1 & Hm1 & ->).
  { destruct (is_native_numeric obj_term && eq_zero obj_term).
    - unfold ret in Hobj. injection Hobj as <-.
      exists (_pyomo_model self). split; [reflexivity|]. by destruct self.
    - unfold bind at 1, gets at 1 in Hobj. unfold bind at 1, liftR at 1 in Hobj.
      destruct (find_active_objective (_pyomo_model self) true) as [[o|]|e] eqn:Hfind;
        try discriminate Hobj.
      unfold modify in Hobj. injection Hobj as <-. eauto. }
  apply bind_Ok in Hrun as (obj_coef & s2 & Hcoef & Hrun).
  unfold liftR in Hcoef. injection Hcoef as _ <-.
  apply bind_Ok in Hrun as ([coeff_list constr_list] & s3 & Hloop & Hrun).
  apply add_column_loop_inv in Hloop
    as (cvals & rows & [= -> ->] & Hcv & Hrows & Hmodel & Hvrefs & Hs3 & Hy3 & _ & _).
  simpl in Hrows, Hmodel, Hvrefs, Hs3, Hy3.
  apply bind_Ok in Hrun as (varname & s4 & Hsym & Hrun).
  apply symbol_of_Ok in Hsym as (sm & Hsym & ->). rewrite Hy3 in Hsym.
  apply bind_Ok in Hrun as (vartype & s5 & Htype & Hrun).
  unfold liftR in Htype. injection Htype as Htype <-.
  assert ((if is_fixed var
           then (var_value var, var_value var)
           else (if has_lb var then var_lb var else Some (- xpress_infinity)%Q,
                 if has_ub var then var_ub var else Some xpress_infinity))
          = bounds_of var) as Hbounds.
  { unfold bounds_of, has_lb, has_ub.
    by destruct (is_fixed var), (var_lb var), (var_ub var). }
  rewrite Hbounds in Hrun. destruct (bounds_of var) as [lb ub].
  apply bind_Ok in Hrun as ([] & s6 & Hadd & Hrun).
  apply solver_call_Ok in Hadd as (p1 & Hadd & ->). simpl in Hadd. rewrite Hs3 in Hadd.
  apply bind_Ok in Hrun as (index & s7 & Hidx & Hrun).
  apply solver_call_Ok in Hidx as (p2 & Hidx & ->). simpl in Hidx.
  apply bind_Ok in Hrun as (xpress_var & s8 & Hvar & Hrun).
  apply solver_call_Ok in Hvar as (p3 & Hvar & ->). simpl in Hvar.
  unfold modify in Hrun. injection Hrun as <-.
  exists m1, cvals, rows, varname, vartype, sm, index, xpress_var, p1, p2, p3.
  simpl. rewrite Hmodel, Hvrefs. repeat split; assumption.
Qed.

End AddColumnEffects.

(** The call on the sample instance returns, so the description above
    applies to it. *)
Lemma add_column_effects_witness :
  let coefficients := [sample_a; Const 7] in
  let constraints := [1; 2] in
  let self' := (add_column sample_x sample_p constraints coefficients sample_self).2 in
  exists (m1 : PyomoModel) (cvals : list expr) (rows : list nat)
         (varname vartype : string) (sm : unit) (index : nat)
         (xpress_var : xvar) (p1 p2 p3 : list xcall),
    (exists o,
        find_active_objective sample_model true = Ok (Some o) /\
        m1 = iadd_obj_expr o (ProductExpression sample_p (VarData sample_x))
               sample_model) /\
    _pyomo_model self'
      = fold_left (add_to_body sample_x) (combine coefficients constraints) m1 /\
    _vars_referenced_by_con self'
      = fold_left (add_to_referenced sample_x) (combine coefficients constraints)
          (_vars_referenced_by_con sample_self) /\
    Forall2 (fun p cval => _convert_to_const p.1 = Ok cval)
            (combine coefficients constraints) cvals /\
    Forall2 (fun p row => _pyomo_con_to_solver_con_map sample_self !! p.2 = Some row)
            (combine coefficients constraints) rows /\
    getSymbol sample_x tt = (Ok varname, sm) /\
    _symbol_map self' = sm /\
    _xpress_chgcoltype_from_var sample_x = Ok vartype /\
    addcols {| objx := [sample_p];
               mstart := [0; length cvals];
               mrwind := rows;
               dmatval := cvals;
               bdl := [(bounds_of sample_x).1];
               bdu := [(bounds_of sample_x).2];
               names := [varname];
               types := [vartype] |} (_solver_model sample_self) = (Ok tt, p1) /\
    getIndexFromName 2 varname p1 = (Ok index, p2) /\
    getVariable index p2 = (Ok xpress_var, p3) /\
    _solver_model self' = p3.
Proof.
  apply (add_column_effects (ext := recording) sample_x sample_p [1; 2]
           [sample_a; Const 7] sample_self).
  vm_compute. reflexivity.
Defined.

(** *** [add_column]: the dictionaries after a call that returns *)

(** The vendor calls by which a call of [add_column] that returns has
    obtained the solver variable, and the three assignments that store
    it. *)
Lemma add_column_Ok_calls {ext : Externals} (var : Var) (obj_term : expr)
    (constraints : list nat) (coefficients : list expr)
    (self self' : XpressPersistent) :
  add_column var obj_term constraints coefficients self = (Ok tt, self') ->
  exists (a : addcols_args) (varname : string) (sm : symbol_map) (index : nat)
         (xpress_var : xvar) (p1 p2 : problem),
    getSymbol var (_symbol_map self) = (Ok varname, sm) /\
    names a = [varname] /\
    addcols a (_solver_model self) = (Ok tt, p1) /\
    getIndexFromName 2 varname p1 = (Ok index, p2) /\
    getVariable index p2 = (Ok xpress_var, _solver_model self') /\
    _pyomo_var_to_solver_var_map self'
      = <[var_id var := xpress_var]> (_pyomo_var_to_solver_var_map self) /\
    _solver_var_to_pyomo_var_map self'
      = <[xpress_var := var_id var]> (_solver_var_to_pyomo_var_map self) /\
    _referenced_variables self'
      = <[var_id var := length (combine coefficients constraints)]>
          (_referenced_variables self).
Proof.
  unfold add_column. intros Hrun.
  apply bind_Ok in Hrun as ([] & s1 & Hobj & Hrun).
  assert (exists m1, s1 = set_pyomo_model m1 self) as (m1 & ->).
  { destruct (is_native_numeric obj_term && eq_zero obj_term).
    - unfold ret in Hobj. injection Hobj as <-.
      exists (_pyomo_model self). by destruct self.
    - unfold bind at 1, gets at 1 in Hobj. unfold bind at 1, liftR at 1 in Hobj.
      destruct (find_active_objective (_pyomo_model self) true) as [[o|]|e];
        try discriminate Hobj.
      unfold modify in Hobj. injection Hobj as <-. eauto. }
  apply bind_Ok in Hrun as (obj_coef & s2 & Hcoef & Hrun).
  unfold liftR in Hcoef. injection Hcoef as _ <-.
  apply bind_Ok in Hrun as ([coeff_list constr_list] & s3 & Hloop & Hrun).
  apply add_column_loop_inv in Hloop
    as (cvals & rows & [= -> ->] & Hcv & _ & _ & _ & Hs3 & Hy3 & _ & Hmaps).
  simpl in Hs3, Hy3, Hmaps.
  apply Forall2_length in Hcv.
  apply bind_Ok in Hrun as (varname & s4 & Hsym & Hrun).
  apply symbol_of_Ok in Hsym as (sm & Hsym & ->). rewrite Hy3 in Hsym.
  apply bind_Ok in Hrun as (vartype & s5 & Htype & Hrun).
  unfold liftR in Htype. injection Htype as _ <-.
  destruct (if is_fixed var then _ else _) as [lb ub].
  apply bind_Ok in Hrun as ([] & s6 & Hadd & Hrun).
  apply solver_call_Ok in Hadd as (p1 & Hadd & ->). simpl in Hadd. rewrite Hs3 in Hadd.
  apply bind_Ok in Hrun as (index & s7 & Hidx & Hrun).
  apply solver_call_Ok in Hidx as (p2 & Hidx & ->). simpl in Hidx.
  apply bind_Ok in Hrun as (xpress_var & s8 & Hvar & Hrun).
  apply solver_call_Ok in Hvar as (p3 & Hvar & ->). simpl in Hvar.
  unfold modify in Hrun. injection Hrun as <-.
  unfold column_maps in Hmaps. simpl in Hmaps. injection Hmaps as Hp Hs Hr.
  match type of Hadd with addcols ?a _ = _ => exists a end.
  exists varname, sm, index, xpress_var, p1, p2.
  split; [exact Hsym|]. split; [reflexivity|]. split; [exact Hadd|].
  split; [exact Hidx|]. simpl. split; [exact Hvar|].
  rewrite Hp, Hs, Hr, Hcv. auto.
Qed.

(** C9, amended: a call of [add_column] that returns has asked the solver
    model, after [addcols], for the index of the column named as the symbol
    of [var] and for the variable at that index; [_pyomo_var_to_solver_var_map]
    maps [var] to the solver variable [getVariable] returned and
    [_solver_var_to_pyomo_var_map] maps that solver variable back to [var],
    every other entry of both dictionaries being as before, so that
    dictionaries that were mutual inverses remain so when [var] and the
    solver variable were not keys yet; and [_referenced_variables[var]] is
    the number of pairs of [zip(coefficients, constraints)], the smaller of
    the two lengths, which is the number of constraints when the lists are
    equally long. *)
Theorem add_column_bookkeeping {ext : Externals} (var : Var) (obj_term : expr)
    (constraints : list nat) (coefficients : list expr)
    (self self' : XpressPersistent) :
  add_column var obj_term constraints coefficients self = (Ok tt, self') ->
  exists (a : addcols_args) (varname : string) (sm : symbol_map) (index : nat)
         (xpress_var : xvar) (p1 p2 : problem),
    getSymbol var (_symbol_map self) = (Ok varname, sm) /\
    names a = [varname] /\
    addcols a (_solver_model self) = (Ok tt, p1) /\
    getIndexFromName 2 varname p1 = (Ok index, p2) /\
    getVariable index p2 = (Ok xpress_var, _solver_model self') /\
    _pyomo_var_to_solver_var_map self' !! var_id var = Some xpress_var /\
    _solver_var_to_pyomo_var_map self' !! xpress_var = Some (var_id var) /\
    (forall k, k <> var_id var ->
       _pyomo_var_to_solver_var_map self' !! k
         = _pyomo_var_to_solver_var_map self !! k) /\
    (forall x, x <> xpress_var ->
       _solver_var_to_pyomo_var_map self' !! x
         = _solver_var_to_pyomo_var_map self !! x) /\
    _referenced_variables self' !! var_id var
      = Some (Nat.min (length coefficients) (length constraints)) /\
    (length coefficients = length constraints ->
     _referenced_variables self' !! var_id var = Some (length constraints)) /\
    (mutual_inverses (_pyomo_var_to_solver_var_map self)
                     (_solver_var_to_pyomo_var_map self) ->
     _pyomo_var_to_solver_var_map self !! var_id var = None ->
     _solver_var_to_pyomo_var_map self !! xpress_var = None ->
     mutual_inverses (_pyomo_var_to_solver_var_map self')
                     (_solver_var_to_pyomo_var_map self')).
Proof.
  intros Hrun.
  apply add_column_Ok_calls in Hrun
    as (a & varname & sm & index & xpress_var & p1 & p2
        & Hsym & Hname & Hadd & Hidx & Hvar & Hp & Hs & Hr).
  exists a, varname, sm, index, xpress_var, p1, p2.
  rewrite Hp, Hs, Hr, length_combine.
  do 5 (split; [assumption|]).
  split; [apply lookup_insert_eq|].
  split; [apply lookup_insert_eq|].
  split; [intros k Hk; by rewrite lookup_insert_ne|].
  split; [intros x Hx; by rewrite lookup_insert_ne|].
  split; [apply lookup_insert_eq|].
  split; [intros ->; rewrite Nat.min_id; apply lookup_insert_eq|].
  apply mutual_inverses_insert.
Qed.

(** Witness of C9: adding [x] with two constraints and two coefficients to
    the sample instance returns. *)
Lemma add_column_bookkeeping_witness :
  let self' :=
    (add_column sample_x sample_p [1; 2] [sample_a; Const 7] sample_self).2 in
  exists (a : addcols_args) (varname : string) (sm : unit) (index : nat)
         (xpress_var : xvar) (p1 p2 : list xcall),
    getSymbol sample_x (_symbol_map sample_self) = (Ok varname, sm) /\
    names a = [varname] /\
    addcols a (_solver_model sample_self) = (Ok tt, p1) /\
    getIndexFromName 2 varname p1 = (Ok index, p2) /\
    getVariable index p2 = (Ok xpress_var, _solver_model self') /\
    _pyomo_var_to_solver_var_map self' !! 5 = Some xpress_var /\
    _solver_var_to_pyomo_var_map self' !! xpress_var = Some 5 /\
    (forall k, k <> 5 ->
       _pyomo_var_to_solver_var_map self' !! k
         = _pyomo_var_to_solver_var_map sample_self !! k) /\
    (forall x, x <> xpress_var ->
       _solver_var_to_pyomo_var_map self' !! x
         = _solver_var_to_pyomo_var_map sample_self !! x) /\
    _referenced_variables self' !! 5 = Some 2 /\
    (length [sample_a; Const 7] = length [1; 2] ->
     _referenced_variables self' !! 5 = Some 2) /\
    (mutual_inverses (_pyomo_var_to_solver_var_map sample_self)
                     (_solver_var_to_pyomo_var_map sample_self) ->
     _pyomo_var_to_solver_var_map sample_self !! 5 = None ->
     _solver_var_to_pyomo_var_map sample_self !! xpress_var = None ->
     mutual_inverses (_pyomo_var_to_solver_var_map self')
                     (_solver_var_to_pyomo_var_map self')).
Proof.
  apply (add_column_bookkeeping (ext := recording) sample_x sample_p [1; 2]
           [sample_a; Const 7] sample_self).
  vm_compute. reflexivity.
Defined.

(** Counterexample to C9 as stated, in its two parts.  With two
    constraints and one coefficient the call returns and
    [_referenced_variables[x]] is 1, not the number of constraints passed
    in.  And when [y], which is column 0 already, is passed again, on a
    solver that answers with the column added last, the call returns with
    [y] mapped to column 2 while column 0 is still mapped to [y]: the
    dictionaries were mutual inverses before the call and are not after
    it. *)
Lemma add_column_bookkeeping_counterexample :
  (let run := add_column sample_x (Const 0) [1; 2] [sample_a] sample_self in
   run.1 = Ok tt /\
   _referenced_variables run.2 !! var_id sample_x = Some 1 /\
   _referenced_variables run.2 !! var_id sample_x <> Some (length [1; 2])) /\
  (let run := add_column sample_y (Const 0) [] [] sample_self_latest in
   run.1 = Ok tt /\
   mutual_inverses (_pyomo_var_to_solver_var_map sample_self_latest)
                   (_solver_var_to_pyomo_var_map sample_self_latest) /\
   _pyomo_var_to_solver_var_map run.2 !! var_id sample_y = Some 2 /\
   _solver_var_to_pyomo_var_map run.2 !! 0 = Some (var_id sample_y) /\
   ~ mutual_inverses (_pyomo_var_to_solver_var_map run.2)
                     (_solver_var_to_pyomo_var_map run.2)).
Proof.
  split.
  - vm_compute. repeat split. intros Heq. discriminate Heq.
  - cbv zeta. split; [vm_compute; reflexivity|]. split.
    + intros k v. simpl.
      rewrite !lookup_insert_Some, !lookup_singleton_Some. lia.
    + split; [vm_compute; reflexivity|]. split; [vm_compute; reflexivity|].
      intros Hinv. specialize (Hinv 6 0). destruct Hinv as [_ Hinv].
      assert (_pyomo_var_to_solver_var_map
                (add_column sample_y (Const 0) [] [] sample_self_latest).2 !! 6
              = Some 2) as Hnew by (vm_compute; reflexivity).
      rewrite Hnew in Hinv. discriminate Hinv. vm_compute. reflexivity.
Qed.

(** ** Further properties of the embedded code *)

(** *** Reasoning about what a computation keeps *)

Lemma bind_inv {S A B : Type} (m : M S A) (k : A -> M S B) (s s' : S) (r : Res B) :
  bind m k s = (r, s') ->
  (exists a s1, m s = (Ok a, s1) /\ k a s1 = (r, s')) \/
  (exists e, m s = (Raise e, s') /\ r = Raise e).
Proof.
  unfold bind. destruct (m s) as [[a|e] s1]; intros Hrun.
  - left. eauto.
  - right. injection Hrun as <- <-. eauto.
Qed.

Section Preserves.
Context {S : Type} (R : S -> S -> Prop).
Hypothesis R_refl : forall s, R s s.
Hypothesis R_trans : forall s1 s2 s3, R s1 s2 -> R s2 s3 -> R s1 s3.

Lemma preserves_ret {A : Type} (a : A) : preserves R (ret a).
Proof using R_refl. intros s r s' [= _ <-]. apply R_refl. Qed.

Lemma preserves_raise {A : Type} (e : exn) : preserves R (raise (A := A) e).
Proof using R_refl. intros s r s' [= _ <-]. apply R_refl. Qed.

Lemma preserves_gets {A : Type} (f : S -> A) : preserves R (gets f).
Proof using R_refl. intros s r s' [= _ <-]. apply R_refl. Qed.

Lemma preserves_liftR {A : Type} (x : Res A) : preserves R (liftR x).
Proof using R_refl. intros s r s' [= _ <-]. apply R_refl. Qed.

Lemma preserves_modify (f : S -> S) :
  (forall s, R s (f s)) -> preserves R (modify f).
Proof using Type. intros Hf s r s' [= _ <-]. apply Hf. Qed.

Lemma preserves_bind {A B : Type} (m : M S A) (k : A -> M S B) :
  preserves R m -> (forall a, preserves R (k a)) -> preserves R (bind m k).
Proof using R_trans.
  intros Hm Hk s r s' Hrun.
  apply bind_inv in Hrun as [(a & s1 & Hms & Hks)|(e & Hms & _)].
  - eapply R_trans; [eapply Hm|eapply Hk]; eassumption.
  - eapply Hm; eassumption.
Qed.

Lemma preserves_on_raise_bind {A B : Type} (m : M S A) (k : A -> M S B) :
  preserves R m -> (forall a, preserves_on_raise R (k a)) ->
  preserves_on_raise R (bind m k).
Proof using R_trans.
  intros Hm Hk s e s' Hrun.
  apply bind_inv in Hrun as [(a & s1 & Hms & Hks)|(e' & Hms & _)].
  - eapply R_trans; [eapply Hm|eapply Hk]; eassumption.
  - eapply Hm; eassumption.
Qed.

Lemma preserves_on_raise_modify (f : S -> S) : preserves_on_raise R (modify f).
Proof using Type. intros s e s' Hrun. discriminate Hrun. Qed.

End Preserves.

Section XpressFrames.
Context {ext : Externals}.

Lemma preserves_solver_call {A : Type} (R : XpressPersistent -> XpressPersistent -> Prop)
    (f : problem -> Res A * problem) :
  (forall self p, R self (set_solver_model p self)) -> preserves R (solver_call f).
Proof.
  intros HR self r self'. unfold solver_call.
  destruct (f (_solver_model self)) as [r' p]. intros [= _ <-]. apply HR.
Qed.

Lemma preserves_symbol_of (R : XpressPersistent -> XpressPersistent -> Prop)
    (var : Var) :
  (forall self sm, R self (set_symbol_map sm self)) -> preserves R (symbol_of var).
Proof.
  intros HR self r self'. unfold symbol_of.
  destruct (getSymbol var (_symbol_map self)) as [r' sm]. intros [= _ <-]. apply HR.
Qed.

(** X3: [update_var] changes nothing but the solver model, whether it returns
    or raises. *)
Theorem update_var_keeps_bookkeeping (var : Var) (self : XpressPersistent) :
  same_bookkeeping self (update_var var self).2.
Proof.
  unfold update_var, bind at 1, gets.
  destruct (_pyomo_var_to_solver_var_map self !! var_id var) as [xpress_var|];
    [|repeat split].
  unfold bind at 1, liftR.
  destruct (_xpress_chgcoltype_from_var var) as [qctype|e]; [|repeat split].
  destruct (if is_fixed var then _ else _) as [lb ub].
  unfold bind, solver_call.
  destruct (chgbounds _ _ _ _) as [[[]|e] p1]; simpl; [|repeat split].
  destruct (chgcoltype _ _ _) as [r p2]. repeat split.
Qed.

(** X4: when [chgbounds] raises, [update_var] raises the same exception and
    [chgcoltype] is not called: the solver model is as [chgbounds] left
    it. *)
Theorem update_var_chgbounds_raises (var : Var) (xpress_var : xvar)
    (qctype : string) (e : exn) (p : problem) (self : XpressPersistent) :
  _pyomo_var_to_solver_var_map self !! var_id var = Some xpress_var ->
  _xpress_chgcoltype_from_var var = Ok qctype ->
  chgbounds [xpress_var; xpress_var] ["L"; "U"]
    [(bounds_of var).1; (bounds_of var).2] (_solver_model self) = (Raise e, p) ->
  update_var var self = (Raise e, set_solver_model p self).
Proof.
  intros Hkey Htype Hraise.
  unfold update_var, bind at 1, gets. rewrite Hkey.
  unfold bind at 1, liftR. rewrite Htype.
  assert ((if is_fixed var
           then (var_value var, var_value var)
           else (if has_lb var then var_lb var else Some (- xpress_infinity)%Q,
                 if has_ub var then var_ub var else Some xpress_infinity))
          = bounds_of var) as ->.
  { unfold bounds_of, has_lb, has_ub.
    by destruct (is_fixed var), (var_lb var), (var_ub var). }
  destruct (bounds_of var) as [lb ub]. simpl in Hraise.
  unfold bind, solver_call. by rewrite Hraise.
Qed.

End XpressFrames.

(** Witness: a vendor whose [chgbounds] refuses every call. *)
Lemma update_var_chgbounds_raises_witness :
  let refusing : Externals :=
    {| problem := list xcall;
       symbol_map := unit;
       pyobj := string;
       xpress_infinity := 100000000000000000000;
       find_active_objective := fun _ _ => Ok None;
       getSymbol := fun var sm => (Ok (var_name var), sm);
       chgbounds := fun cols kinds bnds p =>
         (Raise (VendorError "chgbounds"), p ++ [Chgbounds cols kinds bnds]);
       chgcoltype := fun cols coltypes p => (Ok tt, p ++ [Chgcoltype cols coltypes]);
       addcols := fun a p => (Ok tt, p ++ [Addcols a]);
       getIndexFromName := fun type name p => (Ok 0, p);
       getVariable := fun index p => (Ok index, p);
       getAttrib := fun args p => (Ok "", p);
       setControl := fun args p => (Ok "", p);
       getControl := fun args p => (Ok "", p);
       xp_write := fun filename flags p => (Ok "", p) |} in
  let self : @XpressPersistent refusing :=
    {| _pyomo_model := sample_model;
       _solver_model := [];
       _symbol_map := tt;
       _pyomo_var_to_solver_var_map := {[ 6 := 0 ]};
       _solver_var_to_pyomo_var_map := {[ 0 := 6 ]};
       _pyomo_con_to_solver_con_map := ∅;
       _vars_referenced_by_con := ∅;
       _referenced_variables := {[ 6 := 0 ]} |} in
  update_var sample_y self =
  (Raise (VendorError "chgbounds"),
   set_solver_model [Chgbounds [0; 0] ["L"; "U"] [Some 1%Q; Some 1%Q]] self).
Proof.
  intros refusing self.
  apply (update_var_chgbounds_raises (ext := refusing) sample_y 0 "B"
           (VendorError "chgbounds")
           [Chgbounds [0; 0] ["L"; "U"] [Some 1%Q; Some 1%Q]] self);
    reflexivity.
Defined.

(** *** [_convert_to_const] *)

(** X5: what [_convert_to_const] returns is a native number with the value of
    its argument, and converting it again returns it unchanged; the argument
    was not an expression. *)
Theorem convert_to_const_result (val c : expr) :
  _convert_to_const val = Ok c ->
  is_native_numeric c = true /\
  is_expression_type val = false /\
  value c = value val /\
  _convert_to_const c = Ok c.
Proof.
  destruct val as [q|name [q|]|v|a b|a b]; simpl; try discriminate.
  - intros [= <-]. auto.
  - intros [= <-]. auto.
  - unfold _convert_to_const. simpl.
    destruct (var_value v) as [q|]; simpl; [|discriminate].
    intros [= <-]. auto.
Qed.

(** Witness: the parameter [p] converts to the constant 3. *)
Lemma convert_to_const_result_witness :
  is_native_numeric (Const 3) = true /\
  is_expression_type sample_p = false /\
  value (Const 3) = value sample_p /\
  _convert_to_const (Const 3) = Ok (Const 3).
Proof.
  apply (convert_to_const_result sample_p (Const 3)). reflexivity.
Defined.

(** *** What [add_column] keeps *)

Section AddColumnFrames.
Context {ext : Externals}.
Variable R : XpressPersistent -> XpressPersistent -> Prop.
Hypothesis R_refl : forall self, R self self.
Hypothesis R_trans : forall s1 s2 s3, R s1 s2 -> R s2 s3 -> R s1 s3.
Hypothesis R_symbol_map : forall self sm, R self (set_symbol_map sm self).
Hypothesis R_solver_model : forall self p, R self (set_solver_model p self).
Hypothesis R_referenced :
  forall self m, R self (set_vars_referenced_by_con m self).

Lemma preserves_add_column_loop (var : Var) (pairs : list (expr * nat)) :
  (forall self val c,
      (val, c) ∈ pairs ->
      R self (set_pyomo_model
                (iadd_con_body c (ProductExpression val (VarData var))
                   (_pyomo_model self)) self)) ->
  forall coeff_list constr_list,
    preserves R (add_column_loop var pairs coeff_list constr_list).
Proof using R_refl R_trans R_referenced.
  induction pairs as [|[val c] rest IH]; intros Hbody coeff_list constr_list; simpl.
  - by apply preserves_ret.
  - apply preserves_bind; [done| |intros []].
    { apply preserves_modify. intros self. apply Hbody. left. }
    apply preserves_bind; [done|by apply preserves_gets|intros refs].
    destruct (refs !! c) as [s|]; [|by apply preserves_raise].
    apply preserves_bind; [done|by apply preserves_modify|intros []].
    apply preserves_bind; [done|by apply preserves_liftR|intros cval].
    apply preserves_bind; [done|by apply preserves_gets|intros cmap].
    destruct (cmap !! c) as [solver_con|]; [|by apply preserves_raise].
    apply IH. intros self val' c' Hin. apply Hbody. by right.
Qed.

(** The part of [add_column] that updates the objective. *)
Lemma preserves_objective_update (var : Var) (obj_term : expr) :
  (is_native_numeric obj_term && eq_zero obj_term = true \/
   forall self o,
     R self (set_pyomo_model
               (iadd_obj_expr o (ProductExpression obj_term (VarData var))
                  (_pyomo_model self)) self)) ->
  preserves R
    (if is_native_numeric obj_term && eq_zero obj_term then ret tt
     else
       model <- gets _pyomo_model ;;
       obj <- liftR (find_active_objective model true) ;;
       match obj with
       | None => raise (AttributeError "'NoneType' object has no attribute 'expr'")
       | Some o =>
           modify (fun self =>
                     set_pyomo_model
                       (iadd_obj_expr o (ProductExpression obj_term (VarData var))
                          (_pyomo_model self)) self)
       end).
Proof using R_refl R_trans.
  intros Hobj.
  destruct (is_native_numeric obj_term && eq_zero obj_term);
    [by apply preserves_ret|].
  destruct Hobj as [Hzero|Hobj]; [discriminate|].
  apply preserves_bind; [done|by apply preserves_gets|intros model].
  apply preserves_bind; [done|by apply preserves_liftR|intros [o|]].
  - apply preserves_modify. intros self. apply Hobj.
  - by apply preserves_raise.
Qed.

Section WithUpdates.
Variables (var : Var) (obj_term : expr) (constraints : list nat)
          (coefficients : list expr).
Hypothesis R_objective :
  is_native_numeric obj_term && eq_zero obj_term = true \/
  forall self o,
    R self (set_pyomo_model
              (iadd_obj_expr o (ProductExpression obj_term (VarData var))
                 (_pyomo_model self)) self).
Hypothesis R_body :
  forall self val c,
    (val, c) ∈ combine coefficients constraints ->
    R self (set_pyomo_model
              (iadd_con_body c (ProductExpression val (VarData var))
                 (_pyomo_model self)) self).

(** A relation kept by every assignment [add_column] makes before the last
    three is kept by the calls that raise. *)
Lemma preserves_on_raise_add_column :
  preserves_on_raise R (add_column var obj_term constraints coefficients).
Proof using R_refl R_trans R_symbol_map R_solver_model R_referenced R_objective R_body.
  unfold add_column.
  apply preserves_on_raise_bind;
    [done|by apply preserves_objective_update|intros []].
  apply preserves_on_raise_bind; [done|by apply preserves_liftR|intros obj_coef].
  apply preserves_on_raise_bind;
    [done|by apply preserves_add_column_loop|intros [coeff_list constr_list]].
  apply preserves_on_raise_bind; [done|by apply preserves_symbol_of|intros varname].
  apply preserves_on_raise_bind; [done|by apply preserves_liftR|intros vartype].
  destruct (if is_fixed var then _ else _) as [lb ub].
  apply preserves_on_raise_bind; [done|by apply preserves_solver_call|intros []].
  apply preserves_on_raise_bind; [done|by apply preserves_solver_call|intros index].
  apply preserves_on_raise_bind;
    [done|by apply preserves_solver_call|intros xpress_var].
  apply preserves_on_raise_modify.
Qed.

(** If the last three assignments keep it too, every call keeps it. *)
Lemma preserves_add_column :
  (forall self xpress_var n, R self (record_column var xpress_var n self)) ->
  preserves R (add_column var obj_term constraints coefficients).
Proof using R_refl R_trans R_symbol_map R_solver_model R_referenced R_objective R_body.
  intros Hrecord. unfold add_column.
  apply preserves_bind; [done|by apply preserves_objective_update|intros []].
  apply preserves_bind; [done|by apply preserves_liftR|intros obj_coef].
  apply preserves_bind;
    [done|by apply preserves_add_column_loop|intros [coeff_list constr_list]].
  apply preserves_bind; [done|by apply preserves_symbol_of|intros varname].
  apply preserves_bind; [done|by apply preserves_liftR|intros vartype].
  destruct (if is_fixed var then _ else _) as [lb ub].
  apply preserves_bind; [done|by apply preserves_solver_call|intros []].
  apply preserves_bind; [done|by apply preserves_solver_call|intros index].
  apply preserves_bind; [done|by apply preserves_solver_call|intros xpress_var].
  apply preserves_modify. intros self. apply Hrecord.
Qed.

End WithUpdates.
End AddColumnFrames.

Section AddColumnOutcomes.
Context {ext : Externals}.

(** X6: a call of [add_column] that raises has registered nothing: the two
    variable dictionaries, [_referenced_variables] and the constraint
    dictionary are as they were before the call. *)
Theorem add_column_raise_registers_nothing (var : Var) (obj_term : expr)
    (constraints : list nat) (coefficients : list expr)
    (self self' : XpressPersistent) (e : exn) :
  add_column var obj_term constraints coefficients self = (Raise e, self') ->
  _pyomo_var_to_solver_var_map self' = _pyomo_var_to_solver_var_map self /\
  _solver_var_to_pyomo_var_map self' = _solver_var_to_pyomo_var_map self /\
  _referenced_variables self' = _referenced_variables self /\
  _pyomo_con_to_solver_con_map self' = _pyomo_con_to_solver_con_map self.
Proof.
  intros Hrun.
  assert (same_column_maps self self' /\ same_con_map self self') as [Hmaps Hcon].
  { revert Hrun.
    apply (preserves_on_raise_add_column
             (fun s s' => same_column_maps s s' /\ same_con_map s s')).
    - intros s. by split.
    - intros s1 s2 s3 [H12 H12'] [H23 H23'].
      unfold same_column_maps, same_con_map in *. split; congruence.
    - intros s sm. by split.
    - intros s p. by split.
    - intros s m. by split.
    - right. intros s o. by split.
    - intros s val c _. by split. }
  unfold same_column_maps, column_maps in Hmaps. injection Hmaps as Hp Hs Hr.
  auto.
Qed.

(** X7: with the native number zero as [obj_term], [add_column] leaves every
    objective of the model as it is, whether it returns or raises. *)
Theorem add_column_zero_keeps_objectives (var : Var) (obj_term : expr)
    (constraints : list nat) (coefficients : list expr) (self : XpressPersistent) :
  is_native_numeric obj_term && eq_zero obj_term = true ->
  objectives (_pyomo_model (add_column var obj_term constraints coefficients self).2)
    = objectives (_pyomo_model self) /\
  obj_expr (_pyomo_model (add_column var obj_term constraints coefficients self).2)
    = obj_expr (_pyomo_model self).
Proof.
  intros Hzero.
  destruct (add_column var obj_term constraints coefficients self) as [r self'] eqn:Hrun.
  revert Hrun. simpl. apply (preserves_add_column same_objectives).
  - intros s. by split.
  - intros s1 s2 s3 [H12 H12'] [H23 H23']. split; congruence.
  - intros s sm. by split.
  - intros s p. by split.
  - intros s m. by split.
  - by left.
  - intros s val c _. by split.
  - intros s x n. by split.
Qed.

(** X8: the body of a constraint that is not passed to [add_column] is the
    same after the call, whether the call returns or raises. *)
Theorem add_column_keeps_other_bodies (var : Var) (obj_term : expr)
    (constraints : list nat) (coefficients : list expr) (self : XpressPersistent)
    (c : nat) :
  c ∉ constraints ->
  con_body (_pyomo_model (add_column var obj_term constraints coefficients self).2) c
    = con_body (_pyomo_model self) c.
Proof.
  intros Hc.
  destruct (add_column var obj_term constraints coefficients self) as [r self'] eqn:Hrun.
  revert Hrun. simpl. apply (preserves_add_column (same_body c)).
  - intros s. reflexivity.
  - intros s1 s2 s3 H12 H23. unfold same_body in *. congruence.
  - intros s sm. reflexivity.
  - intros s p. reflexivity.
  - intros s m. reflexivity.
  - right. intros s o. reflexivity.
  - intros s val c' Hin. unfold same_body. simpl.
    apply fn_lookup_insert_ne. intros ->. apply Hc.
    apply list_elem_of_In. apply list_elem_of_In in Hin.
    eapply in_combine_r. exact Hin.
  - intros s x n. reflexivity.
Qed.

End AddColumnOutcomes.

Section AddColumnReturns.
Context {ext : Externals}.

(** The steps of a call of [add_column] that returns, up to the loop. *)
Lemma add_column_Ok_steps (var : Var) (obj_term : expr) (constraints : list nat)
    (coefficients : list expr) (self self' : XpressPersistent) :
  add_column var obj_term constraints coefficients self = (Ok tt, self') ->
  exists (obj_coef : expr) (vartype : string) (s1 s3 : XpressPersistent)
         (lists : list expr * list nat),
    _convert_to_const obj_term = Ok obj_coef /\
    _xpress_chgcoltype_from_var var = Ok vartype /\
    _vars_referenced_by_con s1 = _vars_referenced_by_con self /\
    add_column_loop var (combine coefficients constraints) [] [] s1 = (Ok lists, s3) /\
    _vars_referenced_by_con self' = _vars_referenced_by_con s3.
Proof.
  unfold add_column. intros Hrun.
  apply bind_Ok in Hrun as ([] & s1 & Hobj & Hrun).
  assert (_vars_referenced_by_con s1 = _vars_referenced_by_con self) as Hrefs1.
  { destruct (is_native_numeric obj_term && eq_zero obj_term).
    - unfold ret in Hobj. by injection Hobj as <-.
    - unfold bind at 1, gets at 1 in Hobj. unfold bind at 1, liftR at 1 in Hobj.
      destruct (find_active_objective (_pyomo_model self) true) as [[o|]|e];
        try discriminate Hobj.
      unfold modify in Hobj. by injection Hobj as <-. }
  apply bind_Ok in Hrun as (obj_coef & s2 & Hcoef & Hrun).
  unfold liftR in Hcoef. injection Hcoef as Hcoef <-.
  apply bind_Ok in Hrun as (lists & s3 & Hloop & Hrun).
  destruct lists as [coeff_list constr_list].
  apply bind_Ok in Hrun as (varname & s4 & Hsym & Hrun).
  apply symbol_of_Ok in Hsym as (sm & _ & ->).
  apply bind_Ok in Hrun as (vartype & s5 & Htype & Hrun).
  unfold liftR in Htype. injection Htype as Htype <-.
  destruct (if is_fixed var then _ else _) as [lb ub].
  apply bind_Ok in Hrun as ([] & s6 & Hadd & Hrun).
  apply solver_call_Ok in Hadd as (p1 & _ & ->).
  apply bind_Ok in Hrun as (index & s7 & Hidx & Hrun).
  apply solver_call_Ok in Hidx as (p2 & _ & ->).
  apply bind_Ok in Hrun as (xpress_var & s8 & Hvar & Hrun).
  apply solver_call_Ok in Hvar as (p3 & _ & ->).
  unfold modify in Hrun. injection Hrun as <-.
  exists obj_coef, vartype, s1, s3, (coeff_list, constr_list). auto.
Qed.

(** X9: [add_column] never returns when [obj_term], or a coefficient paired
    with a constraint, is an expression. *)
Theorem add_column_returns_without_expressions (var : Var) (obj_term : expr)
    (constraints : list nat) (coefficients : list expr)
    (self self' : XpressPersistent) :
  add_column var obj_term constraints coefficients self = (Ok tt, self') ->
  is_expression_type obj_term = false /\
  Forall (fun p => is_expression_type p.1 = false)
         (combine coefficients constraints).
Proof.
  intros Hrun.
  apply add_column_Ok_steps in Hrun
    as (obj_coef & vartype & s1 & s3 & lists & Hcoef & _ & _ & Hloop & _).
  assert (forall val c, _convert_to_const val = Ok c -> is_expression_type val = false)
    as Hconv.
  { intros val c. destruct val; simpl; auto; discriminate. }
  split; [by eapply Hconv|].
  apply add_column_loop_inv in Hloop as (cvals & rows & _ & Hcv & _).
  clear -Hcv Hconv. induction Hcv as [|p cval pairs cvals Hp _ IH]; constructor.
  - by eapply Hconv.
  - exact IH.
Qed.

(** The loop of a call that returns has found every constraint it
    processed in [_vars_referenced_by_con], has added [var] to the set of
    each, and has removed nothing from any set. *)
Lemma add_column_loop_referenced (var : Var) (pairs : list (expr * nat)) :
  forall (coeff_list : list expr) (constr_list : list nat)
         (self self' : XpressPersistent) (lists : list expr * list nat),
    add_column_loop var pairs coeff_list constr_list self = (Ok lists, self') ->
    (forall c s, _vars_referenced_by_con self !! c = Some s ->
       exists s', _vars_referenced_by_con self' !! c = Some s' /\ s ⊆ s') /\
    (forall c, c ∈ pairs.*2 ->
       exists s', _vars_referenced_by_con self' !! c = Some s' /\ var_id var ∈ s').
Proof.
  induction pairs as [|[val c] rest IH]; intros coeff_list constr_list self self' lists.
  - simpl. unfold ret. intros [= <- <-]. split.
    + intros c s Hc. exists s. by split.
    + intros c Hin. by apply elem_of_nil in Hin.
  - simpl. unfold bind at 1, modify at 1. unfold bind at 1, gets at 1. simpl.
    destruct (_vars_referenced_by_con self !! c) as [s0|] eqn:Hrefs; [|discriminate].
    unfold bind at 1, modify at 1. unfold bind at 1, liftR at 1.
    destruct (_convert_to_const val) as [cval|e]; [|discriminate].
    unfold bind at 1, gets at 1. simpl.
    destruct (_pyomo_con_to_solver_con_map self !! c) as [row|]; [|discriminate].
    intros Hrest. apply IH in Hrest as [Hgrow Hin]. simpl in Hgrow.
    split.
    + intros c' s Hc'. destruct (decide (c' = c)) as [->|Hne].
      * destruct (Hgrow c ({[var_id var]} ∪ s0)) as (s' & Hs' & Hsub).
        { apply lookup_insert_eq. }
        exists s'. split; [exact Hs'|]. rewrite Hrefs in Hc'. injection Hc' as <-.
        etrans; [|exact Hsub]. apply union_subseteq_r.
      * apply Hgrow. by rewrite lookup_insert_ne.
    + intros c' Hc'. simpl in Hc'. apply elem_of_cons in Hc' as [->|Hc'].
      * destruct (Hgrow c ({[var_id var]} ∪ s0)) as (s' & Hs' & Hsub).
        { apply lookup_insert_eq. }
        exists s'. split; [exact Hs'|].
        apply Hsub, elem_of_union_l. by apply elem_of_singleton.
      * by apply Hin.
Qed.

(** X10: after a call of [add_column] that returns, the set of variables
    referenced by each constraint paired with a coefficient contains [var],
    and every set of [_vars_referenced_by_con] has kept its members. *)
Theorem add_column_references_var (var : Var) (obj_term : expr)
    (constraints : list nat) (coefficients : list expr)
    (self self' : XpressPersistent) :
  add_column var obj_term constraints coefficients self = (Ok tt, self') ->
  (forall c, c ∈ (combine coefficients constraints).*2 ->
     exists s', _vars_referenced_by_con self' !! c = Some s' /\ var_id var ∈ s') /\
  (forall c s, _vars_referenced_by_con self !! c = Some s ->
     exists s', _vars_referenced_by_con self' !! c = Some s' /\ s ⊆ s').
Proof.
  intros Hrun.
  apply add_column_Ok_steps in Hrun
    as (obj_coef & vartype & s1 & s3 & lists & _ & _ & Hrefs1 & Hloop & Hrefs3).
  apply add_column_loop_referenced in Hloop as [Hgrow Hin].
  rewrite Hrefs3. rewrite Hrefs1 in Hgrow. auto.
Qed.

(** X11: after a call of [add_column] that returns, [update_var] on the same
    variable finds it: it sends to the solver, for the solver variable that
    [getVariable] returned for the new column, the bounds and the column
    type the variable has. *)
Theorem add_column_then_update_var (var : Var) (obj_term : expr)
    (constraints : list nat) (coefficients : list expr)
    (self self' : XpressPersistent) :
  add_column var obj_term constraints coefficients self = (Ok tt, self') ->
  exists (a : addcols_args) (varname : string) (sm : symbol_map) (index : nat)
         (xpress_var : xvar) (p1 p2 : problem) (vartype : string),
    getSymbol var (_symbol_map self) = (Ok varname, sm) /\
    names a = [varname] /\
    addcols a (_solver_model self) = (Ok tt, p1) /\
    getIndexFromName 2 varname p1 = (Ok index, p2) /\
    getVariable index p2 = (Ok xpress_var, _solver_model self') /\
    _pyomo_var_to_solver_var_map self' !! var_id var = Some xpress_var /\
    _xpress_chgcoltype_from_var var = Ok vartype /\
    update_var var self' =
    (solver_call (chgbounds [xpress_var; xpress_var] ["L"; "U"]
                    [(bounds_of var).1; (bounds_of var).2]) ;;
     solver_call (chgcoltype [xpress_var] [vartype])) self'.
Proof.
  intros Hrun.
  apply add_column_Ok_steps in Hrun as Hsteps.
  destruct Hsteps as (obj_coef & vartype & s1 & s3 & lists & _ & Htype & _).
  apply add_column_Ok_calls in Hrun
    as (a & varname & sm & index & xpress_var & p1 & p2
        & Hsym & Hname & Hadd & Hidx & Hvar & Hp & _).
  exists a, varname, sm, index, xpress_var, p1, p2, vartype.
  assert (_pyomo_var_to_solver_var_map self' !! var_id var = Some xpress_var) as Hkey.
  { rewrite Hp. apply lookup_insert_eq. }
  do 5 (split; [assumption|]).
  split; [exact Hkey|]. split; [exact Htype|].
  unfold update_var, bind at 1, gets. rewrite Hkey.
  unfold bind at 1, liftR. rewrite Htype.
  unfold bounds_of, has_lb, has_ub.
  by destruct (is_fixed var), (var_lb var), (var_ub var).
Qed.

(** X12: a constraint that [_vars_referenced_by_con] does not know makes
    [add_column] raise [KeyError], after [val*var] has been added to the
    body of that constraint: the Pyomo model is changed although the call
    failed. *)
Theorem add_column_unknown_constraint (var : Var) (obj_term val : expr)
    (c : nat) (constraints : list nat) (coefficients : list expr)
    (self : XpressPersistent) :
  is_native_numeric obj_term && eq_zero obj_term = true ->
  _vars_referenced_by_con self !! c = None ->
  add_column var obj_term (c :: constraints) (val :: coefficients) self =
  (Raise (KeyError c),
   set_pyomo_model
     (iadd_con_body c (ProductExpression val (VarData var)) (_pyomo_model self))
     self).
Proof.
  intros Hzero Hunknown. unfold add_column. rewrite Hzero.
  apply andb_true_iff in Hzero as [Hnative _].
  unfold _convert_to_const. rewrite Hnative.
  unfold bind at 1, ret. unfold bind at 1, liftR. unfold bind at 1. simpl.
  unfold bind at 1, modify. unfold bind at 1, gets. simpl.
  by rewrite Hunknown.
Qed.

End AddColumnReturns.

(** Witnesses on the sample instance.  With the expression [2*p] as
    [obj_term] the call raises; with [p] or 0 it returns; constraint 9 is
    not known to the instance. *)
Lemma add_column_raise_registers_nothing_witness :
  _pyomo_var_to_solver_var_map
    (add_column sample_x (ProductExpression (Const 2) sample_p) [1; 2]
       [sample_a; Const 7] sample_self).2
    = _pyomo_var_to_solver_var_map sample_self /\
  _solver_var_to_pyomo_var_map
    (add_column sample_x (ProductExpression (Const 2) sample_p) [1; 2]
       [sample_a; Const 7] sample_self).2
    = _solver_var_to_pyomo_var_map sample_self /\
  _referenced_variables
    (add_column sample_x (ProductExpression (Const 2) sample_p) [1; 2]
       [sample_a; Const 7] sample_self).2
    = _referenced_variables sample_self /\
  _pyomo_con_to_solver_con_map
    (add_column sample_x (ProductExpression (Const 2) sample_p) [1; 2]
       [sample_a; Const 7] sample_self).2
    = _pyomo_con_to_solver_con_map sample_self.
Proof.
  apply (add_column_raise_registers_nothing (ext := recording) sample_x
           (ProductExpression (Const 2) sample_p) [1; 2] [sample_a; Const 7]
           sample_self _ (NameError "obj_term")).
  vm_compute. reflexivity.
Defined.

Lemma add_column_zero_keeps_objectives_witness :
  objectives
    (_pyomo_model (add_column sample_x (Const 0) [1; 2] [sample_a; Const 7]
                     sample_self).2)
    = objectives (_pyomo_model sample_self) /\
  obj_expr
    (_pyomo_model (add_column sample_x (Const 0) [1; 2] [sample_a; Const 7]
                     sample_self).2)
    = obj_expr (_pyomo_model sample_self).
Proof.
  apply (add_column_zero_keeps_objectives (ext := recording) sample_x (Const 0)
           [1; 2] [sample_a; Const 7] sample_self).
  reflexivity.
Defined.

Lemma add_column_keeps_other_bodies_witness :
  con_body
    (_pyomo_model (add_column sample_x sample_p [1; 2] [sample_a; Const 7]
                     sample_self).2) 3
    = con_body (_pyomo_model sample_self) 3.
Proof.
  apply (add_column_keeps_other_bodies (ext := recording) sample_x sample_p
           [1; 2] [sample_a; Const 7] sample_self 3).
  intros Hin. apply list_elem_of_In in Hin. simpl in Hin. lia.
Defined.

Lemma add_column_returns_without_expressions_witness :
  is_expression_type sample_p = false /\
  Forall (fun p => is_expression_type p.1 = false)
         (combine [sample_a; Const 7] [1; 2]).
Proof.
  apply (add_column_returns_without_expressions (ext := recording) sample_x
           sample_p [1; 2] [sample_a; Const 7] sample_self
           (add_column sample_x sample_p [1; 2] [sample_a; Const 7] sample_self).2).
  vm_compute. reflexivity.
Defined.

Lemma add_column_references_var_witness :
  (forall c, c ∈ (combine [sample_a; Const 7] [1; 2]).*2 ->
     exists s',
       _vars_referenced_by_con
         (add_column sample_x sample_p [1; 2] [sample_a; Const 7] sample_self).2
         !! c = Some s' /\ var_id sample_x ∈ s') /\
  (forall c s, _vars_referenced_by_con sample_self !! c = Some s ->
     exists s',
       _vars_referenced_by_con
         (add_column sample_x sample_p [1; 2] [sample_a; Const 7] sample_self).2
         !! c = Some s' /\ s ⊆ s').
Proof.
  apply (add_column_references_var (ext := recording) sample_x sample_p [1; 2]
           [sample_a; Const 7] sample_self).
  vm_compute. reflexivity.
Defined.

Lemma add_column_then_update_var_witness :
  let self' :=
    (add_column sample_x sample_p [1; 2] [sample_a; Const 7] sample_self).2 in
  exists (a : addcols_args) (varname : string) (sm : unit) (index : nat)
         (xpress_var : xvar) (p1 p2 : list xcall) (vartype : string),
    getSymbol sample_x (_symbol_map sample_self) = (Ok varname, sm) /\
    names a = [varname] /\
    addcols a (_solver_model sample_self) = (Ok tt, p1) /\
    getIndexFromName 2 varname p1 = (Ok index, p2) /\
    getVariable index p2 = (Ok xpress_var, _solver_model self') /\
    _pyomo_var_to_solver_var_map self' !! var_id sample_x = Some xpress_var /\
    _xpress_chgcoltype_from_var sample_x = Ok vartype /\
    update_var sample_x self' =
    (solver_call (chgbounds [xpress_var; xpress_var] ["L"; "U"]
                    [(bounds_of sample_x).1; (bounds_of sample_x).2]) ;;
     solver_call (chgcoltype [xpress_var] [vartype])) self'.
Proof.
  apply (add_column_then_update_var (ext := recording) sample_x sample_p [1; 2]
           [sample_a; Const 7] sample_self).
  vm_compute. reflexivity.
Defined.

Lemma add_column_unknown_constraint_witness :
  add_column sample_x (Const 0) [9; 1] [sample_a; Const 7] sample_self =
  (Raise (KeyError 9),
   set_pyomo_model
     (iadd_con_body 9 (ProductExpression sample_a (VarData sample_x))
        (_pyomo_model sample_self))
     sample_self).
Proof.
  apply (add_column_unknown_constraint (ext := recording) sample_x (Const 0)
           sample_a 9 [1] [Const 7] sample_self); reflexivity.
Defined.

Example add_column_then_update_var_sample :
  skipn 5 (_solver_model
             (update_var sample_x
                (add_column sample_x sample_p [1; 2] [sample_a; Const 7]
                   sample_self).2).2) =
  [Chgbounds [2; 2] ["L"; "U"] [Some 0%Q; Some 100000000000000000000%Q];
   Chgcoltype [2] ["C"]].
Proof. vm_compute. reflexivity. Qed.

(** *** The GDPopt builders on one block *)

Lemma declare_subseteq (name : string) (config : config_item) :
  preserves (fun C C' : gmap string config_item => C ⊆ C') (declare name config).
Proof.
  intros C r C'. unfold declare.
  destruct (C !! str_replace " " "_" name) eqn:Hname; [by intros [= _ <-]|].
  destruct (_ || _); intros [= _ <-]; [reflexivity|].
  by apply insert_subseteq.
Qed.

Lemma declare_all_subseteq (steps : list (string * Res config_item)) :
  preserves (fun C C' : gmap string config_item => C ⊆ C') (declare_all steps).
Proof.
  induction steps as [|[name arg] rest IH].
  - intros C r C' [= _ <-]. reflexivity.
  - intros C r C'. rewrite declare_all_cons. revert C r C'.
    apply preserves_bind.
    + intros C1 C2 C3 H12 H23. by etrans.
    + apply preserves_liftR. reflexivity.
    + intros config. apply preserves_bind.
      * intros C1 C2 C3 H12 H23. by etrans.
      * apply declare_subseteq.
      * intros []. exact IH.
Qed.

(** A run of declarations that returns found every name free and every
    object built. *)
Lemma declare_all_Ok_free (steps : list (string * Res config_item))
    (CONFIG : gmap string config_item) :
  Forall (fun step => plain_name step.1 = true) steps ->
  (declare_all steps CONFIG).1 = Ok tt ->
  Forall (fun n => CONFIG !! n = None) steps.*1 /\
  Forall (fun step => exists config, step.2 = Ok config) steps.
Proof.
  intros Hplain Hrun.
  destruct (declare_all steps CONFIG) as [r CONFIG'] eqn:Hsteps.
  simpl in Hrun. subst r.
  apply declare_all_Ok in Hsteps as [_ Hsteps]; [|exact Hplain].
  split.
  - apply Forall_fmap. eapply Forall_impl; [exact Hsteps|].
    by intros step [Hfree _].
  - eapply Forall_impl; [exact Hsteps|].
    intros step (_ & config & Hbuilt & _). eauto.
Qed.

Lemma declare_all_built_iff (items : list (string * config_item))
    (CONFIG : gmap string config_item) :
  Forall (fun n => plain_name n = true) items.*1 ->
  NoDup items.*1 ->
  (declare_all (built items) CONFIG).1 = Ok tt <->
  Forall (fun n => CONFIG !! n = None) items.*1.
Proof.
  intros Hplain Hnd. split.
  - intros Hrun. apply declare_all_Ok_free in Hrun as [Hfree _].
    + unfold built in Hfree. rewrite <- list_fmap_compose in Hfree. exact Hfree.
    + unfold built. apply Forall_fmap. apply Forall_fmap in Hplain. exact Hplain.
  - intros Hfree. by rewrite declare_all_fresh.
Qed.

Lemma declared_lookup_notin (items : list (string * config_item)) :
  forall (CONFIG : gmap string config_item) (n : string),
    n ∉ items.*1 -> declared CONFIG items !! n = CONFIG !! n.
Proof.
  induction items as [|[name item] rest IH]; intros CONFIG n Hn; [reflexivity|].
  rewrite fmap_cons in Hn. apply not_elem_of_cons in Hn as [Hne Hn].
  unfold declared in *. simpl. rewrite IH by exact Hn.
  by rewrite lookup_insert_ne.
Qed.

Lemma run_builders_declared (ls : list (list (string * config_item))) :
  forall CONFIG : gmap string config_item,
    Forall (fun n => plain_name n = true) (concat ls).*1 ->
    NoDup (concat ls).*1 ->
    Forall (fun n => CONFIG !! n = None) (concat ls).*1 ->
    run_builders (map (fun items => declare_all (built items)) ls) CONFIG
    = (Ok tt, declared CONFIG (concat ls)).
Proof.
  induction ls as [|items ls IH]; intros CONFIG Hplain Hnd Hfree; [reflexivity|].
  simpl in *. rewrite fmap_app in Hplain, Hnd, Hfree.
  apply Forall_app in Hplain as [Hplain1 Hplain2].
  apply NoDup_app in Hnd as (Hnd1 & Hdisj & Hnd2).
  apply Forall_app in Hfree as [Hfree1 Hfree2].
  unfold bind. rewrite declare_all_fresh by assumption.
  rewrite IH; [|exact Hplain2|exact Hnd2|].
  - unfold declared. by rewrite foldl_app.
  - apply Forall_forall. intros n Hn.
    rewrite declared_lookup_notin.
    + by eapply Forall_forall in Hfree2.
    + intros Hin. by eapply Hdisj.
Qed.

Lemma declared_Permutation (l1 l2 : list (string * config_item)) :
  l1 ≡ₚ l2 -> NoDup l1.*1 ->
  forall CONFIG : gmap string config_item, declared CONFIG l1 = declared CONFIG l2.
Proof.
  induction 1 as [|x l l' Hperm IH|x y l|l l' l'' H1 IH1 H2 IH2];
    intros Hnd CONFIG.
  - reflexivity.
  - rewrite fmap_cons in Hnd. apply NoDup_cons in Hnd as [_ Hnd].
    unfold declared in *. simpl. by apply IH.
  - rewrite !fmap_cons in Hnd.
    apply NoDup_cons in Hnd as [Hy _]. apply not_elem_of_cons in Hy as [Hne _].
    unfold declared. simpl. by rewrite insert_insert_ne.
  - rewrite IH1 by exact Hnd. apply IH2. by rewrite <- H1.
Qed.

Lemma concat_Permutation {A : Type} (ls ls' : list (list A)) :
  ls ≡ₚ ls' -> concat ls ≡ₚ concat ls'.
Proof.
  induction 1 as [|x l l' _ IH|x y l|l l' l'' _ IH1 _ IH2]; simpl.
  - reflexivity.
  - by rewrite IH.
  - rewrite !app_assoc. by rewrite (Permutation_app_comm x y).
  - by etrans.
Qed.

Section GDPoptBuildersTogether.
Variable SolverFactory : string -> solver_object.
Variable valid_init_strategies_keys : list string.
Variable ConfigValue_other : pydefault -> domain -> Res pydefault.
Variable ConfigList_other : pydefault -> domain -> Res config_item.

(** X14: no builder removes or changes a declaration that was in the block,
    whether it runs to its end or raises on the way. *)
Theorem gdpopt_builders_keep_declarations (CONFIG : gmap string config_item) :
  Forall (fun b => CONFIG ⊆ (b CONFIG).2)
         (gdpopt_builders SolverFactory valid_init_strategies_keys
            ConfigValue_other ConfigList_other).
Proof.
  rewrite builders_as_steps. apply Forall_fmap, Forall_forall.
  intros steps _. simpl.
  destruct (declare_all steps CONFIG) as [r C'] eqn:Hrun.
  by eapply declare_all_subseteq.
Qed.

(** X15: a builder runs to its end exactly when none of the option names it
    declares is a key of the block already and its domains accept the
    defaults: [_valid_solvers] returns on the default solver names, and
    ['set_covering'] is a key of [valid_init_strategies]. *)
Theorem gdpopt_builder_returns_iff (CONFIG : gmap string config_item) :
  ((_add_OA_configs SolverFactory valid_init_strategies_keys
      ConfigValue_other ConfigList_other CONFIG).1 = Ok tt <->
   Forall (fun n => CONFIG !! n = None) OA_option_names /\
   "set_covering" ∈ valid_init_strategies_keys) /\
  ((_add_BB_configs SolverFactory ConfigValue_other CONFIG).1 = Ok tt <->
   Forall (fun n => CONFIG !! n = None) BB_option_names) /\
  ((_add_mip_solver_configs SolverFactory ConfigValue_other CONFIG).1 = Ok tt <->
   Forall (fun n => CONFIG !! n = None) mip_solver_option_names /\
   _valid_solvers SolverFactory "gurobi" = Ok "gurobi") /\
  ((_add_nlp_solver_configs SolverFactory ConfigValue_other CONFIG).1 = Ok tt <->
   Forall (fun n => CONFIG !! n = None) nlp_solver_option_names /\
   _valid_solvers SolverFactory "ipopt" = Ok "ipopt" /\
   _valid_solvers SolverFactory "baron" = Ok "baron" /\
   _valid_solvers SolverFactory "bonmin" = Ok "bonmin") /\
  ((_add_tolerance_configs SolverFactory ConfigValue_other CONFIG).1 = Ok tt <->
   Forall (fun n => CONFIG !! n = None) tolerance_option_names).
Proof.
  repeat apply conj.
  - intros Hrun.
    apply (declare_all_Ok_free
             (OA_steps SolverFactory valid_init_strategies_keys
                ConfigValue_other ConfigList_other)) in Hrun as [Hfree Hbuilt];
      [|by repeat constructor].
    split; [exact Hfree|].
    apply Forall_cons_1 in Hbuilt as [[config Hinit] _].
    by apply ConfigValue_In in Hinit as [Hkey _].
  - intros [Hfree Hkey].
    change (_add_OA_configs SolverFactory valid_init_strategies_keys
              ConfigValue_other ConfigList_other)
      with (declare_all (OA_steps SolverFactory valid_init_strategies_keys
                           ConfigValue_other ConfigList_other)).
    rewrite OA_steps_built by exact Hkey.
    apply declare_all_built_iff; [by repeat constructor| |exact Hfree].
    apply (bool_decide_unpack _). vm_compute. exact I.
  - intros Hrun.
    by apply (declare_all_built_iff BB_items CONFIG) in Hrun;
      [|by repeat constructor|apply (bool_decide_unpack _); vm_compute; exact I].
  - intros Hfree.
    apply (declare_all_built_iff BB_items CONFIG); [by repeat constructor| |exact Hfree].
    apply (bool_decide_unpack _). vm_compute. exact I.
  - intros Hrun.
    apply (declare_all_Ok_free (mip_solver_steps SolverFactory ConfigValue_other))
      in Hrun as [Hfree Hbuilt]; [|by repeat constructor].
    split; [exact Hfree|].
    apply Forall_cons_1 in Hbuilt as [[config Hmip] _].
    by apply ConfigValue_valid_solvers in Hmip as [Hgurobi _].
  - intros [Hfree Hgurobi].
    change (_add_mip_solver_configs SolverFactory ConfigValue_other)
      with (declare_all (mip_solver_steps SolverFactory ConfigValue_other)).
    rewrite mip_solver_steps_built by exact Hgurobi.
    apply declare_all_built_iff; [by repeat constructor| |exact Hfree].
    apply (bool_decide_unpack _). vm_compute. exact I.
  - intros Hrun.
    apply (declare_all_Ok_free (nlp_solver_steps SolverFactory ConfigValue_other))
      in Hrun as [Hfree Hbuilt]; [|by repeat constructor].
    split; [exact Hfree|].
    apply Forall_cons_1 in Hbuilt as [[nlp Hnlp] Hbuilt].
    apply Forall_cons_1 in Hbuilt as [_ Hbuilt].
    apply Forall_cons_1 in Hbuilt as [[minlp Hminlp] Hbuilt].
    apply Forall_cons_1 in Hbuilt as [_ Hbuilt].
    apply Forall_cons_1 in Hbuilt as [[loc Hloc] _].
    apply ConfigValue_valid_solvers in Hnlp as [Hipopt _].
    apply ConfigValue_valid_solvers in Hminlp as [Hbaron _].
    apply ConfigValue_valid_solvers in Hloc as [Hbonmin _].
    auto.
  - intros (Hfree & Hipopt & Hbaron & Hbonmin).
    change (_add_nlp_solver_configs SolverFactory ConfigValue_other)
      with (declare_all (nlp_solver_steps SolverFactory ConfigValue_other)).
    rewrite nlp_solver_steps_built by assumption.
    apply declare_all_built_iff; [by repeat constructor| |exact Hfree].
    apply (bool_decide_unpack _). vm_compute. exact I.
  - intros Hrun.
    by apply (declare_all_built_iff tolerance_items CONFIG) in Hrun;
      [|by repeat constructor|apply (bool_decide_unpack _); vm_compute; exact I].
  - intros Hfree.
    apply (declare_all_built_iff tolerance_items CONFIG);
      [by repeat constructor| |exact Hfree].
    apply (bool_decide_unpack _). vm_compute. exact I.
Qed.

Lemma gdpopt_builders_built :
  defaults_accepted SolverFactory valid_init_strategies_keys ->
  gdpopt_builders SolverFactory valid_init_strategies_keys
    ConfigValue_other ConfigList_other
  = map (fun items => declare_all (built items))
      [ OA_items valid_init_strategies_keys; BB_items; mip_solver_items;
        nlp_solver_items; tolerance_items ].
Proof.
  intros (Hkey & Hgurobi & Hipopt & Hbaron & Hbonmin).
  rewrite builders_as_steps.
  rewrite OA_steps_built, mip_solver_steps_built, nlp_solver_steps_built by assumption.
  reflexivity.
Qed.

(** X16: the five builders declare thirty-six option names, all different;
    on a block in which these names are free, and with domains that accept
    the defaults, they can be run in any order: every order runs to its end
    and leaves the same options declared with the same objects. *)
Theorem gdpopt_builders_any_order (CONFIG : gmap string config_item)
    (builders : list (M (gmap string config_item) unit)) :
  builders ≡ₚ gdpopt_builders SolverFactory valid_init_strategies_keys
                ConfigValue_other ConfigList_other ->
  Forall (fun n => CONFIG !! n = None) gdpopt_option_names ->
  defaults_accepted SolverFactory valid_init_strategies_keys ->
  (run_builders builders CONFIG).1 = Ok tt /\
  run_builders builders CONFIG
    = run_builders (gdpopt_builders SolverFactory valid_init_strategies_keys
                      ConfigValue_other ConfigList_other) CONFIG.
Proof.
  intros Hperm Hfree Haccepted. rewrite gdpopt_builders_built in * by exact Haccepted.
  set (items := [OA_items valid_init_strategies_keys; BB_items; mip_solver_items;
                 nlp_solver_items; tolerance_items]) in *.
  assert (Forall (fun n => plain_name n = true) (concat items).*1) as Hplain
    by by repeat constructor.
  assert (NoDup (concat items).*1) as Hnd.
  { apply (bool_decide_unpack _). vm_compute. exact I. }
  apply Permutation_map_inv in Hperm as (ls & -> & Hls).
  assert (concat items ≡ₚ concat ls) as Hconcat by by apply concat_Permutation.
  rewrite (run_builders_declared items) by assumption.
  rewrite (run_builders_declared ls).
  - split; [reflexivity|]. f_equal. symmetry. by apply declared_Permutation.
  - by rewrite <- Hconcat.
  - by rewrite <- Hconcat.
  - by rewrite <- Hconcat.
Qed.

End GDPoptBuildersTogether.

(** Witness: the builders in the reverse of their order in the file, on the
    empty block, with the sample solver factory. *)
Lemma gdpopt_builders_any_order_witness :
  let builders :=
    [ _add_tolerance_configs sample_SolverFactory sample_ConfigValue_other;
      _add_nlp_solver_configs sample_SolverFactory sample_ConfigValue_other;
      _add_mip_solver_configs sample_SolverFactory sample_ConfigValue_other;
      _add_BB_configs sample_SolverFactory sample_ConfigValue_other;
      _add_OA_configs sample_SolverFactory ["no_init"; "set_covering"]
        sample_ConfigValue_other sample_ConfigList_other ] in
  (run_builders builders ∅).1 = Ok tt /\
  run_builders builders ∅
    = run_builders
        (gdpopt_builders sample_SolverFactory ["no_init"; "set_covering"]
           sample_ConfigValue_other sample_ConfigList_other) ∅.
Proof.
  apply (gdpopt_builders_any_order sample_SolverFactory ["no_init"; "set_covering"]
           sample_ConfigValue_other sample_ConfigList_other ∅).
  - exact (reverse_Permutation
             (gdpopt_builders sample_SolverFactory ["no_init"; "set_covering"]
                sample_ConfigValue_other sample_ConfigList_other)).
  - apply Forall_forall. intros n _. apply lookup_empty.
  - split; [apply (bool_decide_unpack _); vm_compute; exact I|].
    repeat split; reflexivity.
Defined.

(** *** [load] twice *)

(** X17: calling [load()] a second time changes nothing: both factories are as
    the first call left them. *)
Theorem load_idempotent (fs : factories) : (load ;; load) fs = load fs.
Proof.
  destruct fs as [[ext_cls ext_doc] [solver_cls solver_doc]].
  cbv [load bind register_extension register_solver modify register
       _cls _doc ExtensionBuilderFactory SolverFactory].
  f_equal. f_equal; f_equal.
  all: apply map_eq; intros name.
  all: rewrite !lookup_insert; repeat case_decide; reflexivity.
Qed.

(** *** The column [add_column] sends *)

(** X13: whatever the lengths of [constraints] and [coefficients], a call of
    [add_column] that returns has called [addcols] on the solver model it
    started from with one well-formed column: as many row indices as row
    coefficients, namely the smaller of the two lengths, [mstart] from 0 to
    that number, every row coefficient a native number, and one objective
    coefficient, bound pair, name and type. *)
Theorem add_column_sends_one_column {ext : Externals} (var : Var) (obj_term : expr)
    (constraints : list nat) (coefficients : list expr)
    (self self' : XpressPersistent) :
  add_column var obj_term constraints coefficients self = (Ok tt, self') ->
  exists (a : addcols_args) (p1 : problem),
    addcols a (_solver_model self) = (Ok tt, p1) /\
    length (mrwind a) = length (dmatval a) /\
    length (dmatval a) = Nat.min (length coefficients) (length constraints) /\
    mstart a = [0; length (dmatval a)] /\
    Forall (fun cval => is_native_numeric cval = true) (dmatval a) /\
    length (objx a) = 1 /\ length (bdl a) = 1 /\ length (bdu a) = 1 /\
    length (names a) = 1 /\ length (types a) = 1.
Proof.
  unfold add_column. intros Hrun.
  apply bind_Ok in Hrun as ([] & s1 & Hobj & Hrun).
  assert (_solver_model s1 = _solver_model self) as Hs1.
  { destruct (is_native_numeric obj_term && eq_zero obj_term).
    - unfold ret in Hobj. by injection Hobj as <-.
    - unfold bind at 1, gets at 1 in Hobj. unfold bind at 1, liftR at 1 in Hobj.
      destruct (find_active_objective (_pyomo_model self) true) as [[o|]|e];
        try discriminate Hobj.
      unfold modify in Hobj. by injection Hobj as <-. }
  apply bind_Ok in Hrun as (obj_coef & s2 & Hcoef & Hrun).
  unfold liftR in Hcoef. injection Hcoef as _ <-.
  apply bind_Ok in Hrun as ([coeff_list constr_list] & s3 & Hloop & Hrun).
  apply add_column_loop_inv in Hloop
    as (cvals & rows & [= -> ->] & Hcv & Hrows & _ & _ & Hs3 & _).
  apply bind_Ok in Hrun as (varname & s4 & Hsym & Hrun).
  apply symbol_of_Ok in Hsym as (sm & _ & ->).
  apply bind_Ok in Hrun as (vartype & s5 & Htype & Hrun).
  unfold liftR in Htype. injection Htype as _ <-.
  destruct (if is_fixed var then _ else _) as [lb ub].
  apply bind_Ok in Hrun as ([] & s6 & Hadd & _).
  apply solver_call_Ok in Hadd as (p1 & Hadd & _).
  simpl in Hadd. rewrite Hs3, Hs1 in Hadd.
  eexists _, p1. split; [exact Hadd|]. simpl.
  assert (length cvals = length (combine coefficients constraints)) as Hlen
    by (symmetry; eapply Forall2_length; exact Hcv).
  apply Forall2_length in Hrows.
  rewrite length_combine in Hlen, Hrows.
  repeat split; try congruence.
  clear -Hcv. induction Hcv as [|p cval pairs cvals Hp _ IH]; constructor; [|exact IH].
  destruct p as [val c]. simpl in Hp. destruct val; simpl in Hp; try discriminate.
  - by injection Hp as <-.
  - destruct v; [by injection Hp as <-|discriminate].
  - unfold _convert_to_const in Hp. simpl in Hp.
    destruct (var_value v); [by injection Hp as <-|discriminate].
Qed.

(** Witness: three constraints and two coefficients on the sample
    instance. *)
Lemma add_column_sends_one_column_witness :
  exists (a : addcols_args) (p1 : list xcall),
    addcols a (_solver_model sample_self) = (Ok tt, p1) /\
    length (mrwind a) = length (dmatval a) /\
    length (dmatval a) = Nat.min (length [sample_a; Const 7]) (length [1; 2; 1]) /\
    mstart a = [0; length (dmatval a)] /\
    Forall (fun cval => is_native_numeric cval = true) (dmatval a) /\
    length (objx a) = 1 /\ length (bdl a) = 1 /\ length (bdu a) = 1 /\
    length (names a) = 1 /\ length (types a) = 1.
Proof.
  apply (add_column_sends_one_column (ext := recording) sample_x sample_p [1; 2; 1]
           [sample_a; Const 7] sample_self
           (add_column sample_x sample_p [1; 2; 1] [sample_a; Const 7] sample_self).2).
  vm_compute. reflexivity.
Defined.
